(** * SMK Billedfinder API: a shallow embedding of [main.py]

    The search pipeline of [main.py] (query normalisation, catalog fetch,
    fuzzy title filter, enrichment fetch, relevance scoring, ranking and
    expansion) is transcribed function by function.

    Modelling conventions.
    - Python [str] is [string]; [str.lower] is the ASCII lowering [lower]
      (bytes outside [A-Z] are left alone), [a in b] is [str_in a b].
    - Python [float] is the kernel's binary64 [float]; the [int] literals
      [0], [1], [80] that meet a float are written as the floats of the
      same value, which is what Python's mixed arithmetic and comparison
      use.
    - A Python call either returns or raises: [result A].  Logging is not
      modelled, it has no effect on any returned value.
    - The network is a [World]: the outcome of the n-th [requests.get] of a
      run, given its url and parameters. *)

From Stdlib Require Import String Ascii List ZArith Bool Arith Lia.
From Stdlib Require Import Sorting.Permutation.
From Stdlib Require Import Floats.PrimFloat Uint63.
Import ListNotations.

#[local] Set Warnings "-inexact-float,-register-all".
#[local] Open Scope string_scope.
#[local] Open Scope list_scope.

(* ================================================================== *)
(** ** Python strings *)

Module PyStr.

(** [c.lower()] on one character, ASCII letters only.  [str.lower] also
    lowers letters outside ASCII; the bytes of their UTF-8 form are left
    alone here, so [lower] is [str.lower] on ASCII text. *)
Definition lower_ascii (c : ascii) : ascii :=
  let n := nat_of_ascii c in
  if (65 <=? n)%nat && (n <=? 90)%nat then ascii_of_nat (n + 32) else c.

(** [s.lower()] *)
Fixpoint lower (s : string) : string :=
  match s with
  | EmptyString => EmptyString
  | String c s' => String (lower_ascii c) (lower s')
  end.

(** [needle in hay]: some suffix of [hay] starts with [needle]. *)
Fixpoint str_in (needle hay : string) : bool :=
  if String.prefix needle hay then true
  else match hay with
       | EmptyString => false
       | String _ hay' => str_in needle hay'
       end.

(** Truthiness of a [str]: the empty string is falsy. *)
Definition truthy_str (s : string) : bool :=
  match s with EmptyString => false | String _ _ => true end.

(** Truthiness of a list: the empty list is falsy. *)
Definition truthy_list {A} (l : list A) : bool :=
  match l with [] => false | _ :: _ => true end.

(** Truthiness of an [Optional[List[_]]]. *)
Definition truthy_opt_list {A} (o : option (list A)) : bool :=
  match o with None => false | Some l => truthy_list l end.

(** What "is a substring of" means. *)
Definition substring_of (needle hay : string) : Prop :=
  exists pre post, hay = (pre ++ needle ++ post)%string.

End PyStr.
Import PyStr.

(* ================================================================== *)
(** ** Python numbers *)

Module PyNum.

(** [min(a, b)]: the builtin keeps its first argument unless a later one
    is strictly smaller. *)
Definition py_min (a b : float) : float :=
  if (b <? a)%float then b else a.

(** [a >= b] *)
Definition py_ge (a b : float) : bool := (b <=? a)%float.

(** [len(s)] as a float, for the division in the similarity ratio. *)
Definition float_of_nat (n : nat) : float :=
  PrimFloat.of_uint63 (Uint63.of_Z (Z.of_nat n)).

End PyNum.
Import PyNum.

(* ================================================================== *)
(** ** Data model (the pydantic models of [main.py]) *)

(** [class SMKItem(BaseModel)] *)
Record SMKItem := mkSMKItem {
  object_number : string;
  titles : list string;
  creator : string;
  image_thumbnail : option string;
  description : option string
}.

(** [class EnrichmentData(BaseModel)].  The first field of the source has a
    Tamil name that is not a Rocq identifier; it is spelled [kalai_navn]
    here.  The second keeps its source name. *)
Record EnrichmentData := mkEnrichmentData {
  kalai_navn : option (list string);
  აღწერა : option (list string)
}.

(** [EnrichmentData()]: every field at its default [None]. *)
Definition EnrichmentData_empty : EnrichmentData :=
  mkEnrichmentData None None.

(** Truthiness of a model instance: [BaseModel] defines neither [__bool__]
    nor [__len__], so every instance is truthy. *)
Definition truthy_model (e : EnrichmentData) : bool := true.

(** [hasattr(enrichment, name)] for a declared field of the model. *)
Definition hasattr_field (e : EnrichmentData) : bool := true.

(** [class CombinedResult(BaseModel)] *)
Record CombinedResult := mkCombinedResult {
  item : SMKItem;
  enrichment : EnrichmentData;
  relevance : float
}.

(* ================================================================== *)
(** ** [calculate_relevance] *)

(** [for title in item.titles: if query_lower in title.lower():
       score += 0.5; break] *)
Fixpoint title_loop (query_lower : string) (ts : list string)
         (score : float) : float :=
  match ts with
  | [] => score
  | title :: ts' =>
      if str_in query_lower (lower title) then (score + 0.5)%float
      else title_loop query_lower ts' score
  end.

(** [for desc in enrichment.აღწერა: if query_lower in desc.lower():
       score += 0.2; break] *)
Fixpoint desc_loop (query_lower : string) (ds : list string)
         (score : float) : float :=
  match ds with
  | [] => score
  | desc :: ds' =>
      if str_in query_lower (lower desc) then (score + 0.2)%float
      else desc_loop query_lower ds' score
  end.

(** Lines 124-144: the score accumulated before the final [min]. *)
Definition raw_score (item : SMKItem) (enrichment : EnrichmentData)
           (query : string) : float :=
  let score := 0%float in
  let query_lower := lower query in
  let score := title_loop query_lower (titles item) score in
  let score :=
    if str_in query_lower (lower (creator item))
    then (score + 0.3)%float else score in
  let score :=
    match description item with
    | Some d =>
        if truthy_str d && str_in query_lower (lower d)
        then (score + 0.2)%float else score
    | None => score
    end in
  let score :=
    if truthy_model enrichment then
      if hasattr_field enrichment && truthy_opt_list (აღწერა enrichment) then
        match აღწერა enrichment with
        | Some ds => desc_loop query_lower ds score
        | None => score
        end
      else score
    else score in
  score.

(** [return min(1, score)] *)
Definition calculate_relevance (item : SMKItem) (enrichment : EnrichmentData)
           (query : string) : float :=
  py_min 1 (raw_score item enrichment query).

(* ================================================================== *)
(** ** Result expansion: [find_related_works], [filter_and_expand_results] *)

(** [find_related_works]: the body is [return []]. *)
Definition find_related_works (object_number : string) : list CombinedResult :=
  [].

(** The state of the expansion loop: the output list built so far, and the
    object numbers related-work discovery has been called with, in call
    order.  The second component is not a Python variable: it records the
    calls, so that "discovery was triggered" can be stated. *)
Definition ExpandState : Type := (list CombinedResult * list string)%type.

Section Expansion.

(** The discovery function called at line 169.

    As the source stands this function does not compile: line 147 declares
    a plain [def], line 169 has [await find_related_works(...)] in its
    body, which CPython refuses, and line 215 calls the function without
    [await].  What is embedded here is the loop as the text spells it out,
    with the [await] expression read as the list the coroutine returns.
    The source has that behaviour only after an edit, so nothing below is
    stated about what the expansion returns; statements about lines
    199-214 ([ranked_results]) do not pass through these definitions. *)
Variable discover : string -> list CombinedResult.

(** [for desc in result.enrichment.აღწერა:
       if query.lower() in desc.lower():
           related_items = ...; if related_items: extend; break] *)
Fixpoint expand_desc_loop (query : string) (result : CombinedResult)
         (ds : list string) (st : ExpandState) : ExpandState :=
  match ds with
  | [] => st
  | desc :: ds' =>
      if str_in (lower query) (lower desc) then
        let related_items := discover (object_number (item result)) in
        let filtered_results :=
          if truthy_list related_items then fst st ++ related_items
          else fst st in
        (filtered_results, snd st ++ [object_number (item result)])
      else expand_desc_loop query result ds' st
  end.

(** One iteration of [for result in items]. *)
Definition expand_step (query : string) (st : ExpandState)
           (result : CombinedResult) : ExpandState :=
  let st := (fst st ++ [result], snd st) in
  if truthy_model (enrichment result) then
    if hasattr_field (enrichment result)
       && truthy_opt_list (აღწერა (enrichment result)) then
      match აღწერა (enrichment result) with
      | Some ds => expand_desc_loop query result ds st
      | None => st
      end
    else st
  else st.

Definition expand_loop (items : list CombinedResult) (query : string)
  : ExpandState :=
  fold_left (expand_step query) items ([], []).

End Expansion.

Definition filter_and_expand_results (items : list CombinedResult)
           (query : string) : list CombinedResult :=
  fst (expand_loop find_related_works items query).

(* ================================================================== *)
(** ** [get_search_query] *)

(** The [synonyms] dict literal, in insertion order. *)
Definition synonyms : list (string * list string) :=
  [ ("landskab", ["landskab"; "natur"; "udsigt"; "panorama"]);
    ("portræt", ["portræt"; "ansigt"; "buste"; "person"]);
    ("abstrakt", ["abstrakt"; "nonfigurativ"; "formløs"]);
    ("blomst", ["blomst"; "plante"; "flora"; "rose"; "tulipan"; "lilje"]) ].

(** [sep.join(parts)] *)
Fixpoint join (sep : string) (parts : list string) : string :=
  match parts with
  | [] => ""
  | [p] => p
  | p :: ps => (p ++ sep ++ join sep ps)%string
  end.

(** [for term, syns in synonyms.items():
       if term in expanded_query:
           expanded_query = " OR ".join(syns); break] *)
Fixpoint synonym_loop (table : list (string * list string))
         (expanded_query : string) : string :=
  match table with
  | [] => expanded_query
  | (term, syns) :: table' =>
      if str_in term expanded_query then join " OR " syns
      else synonym_loop table' expanded_query
  end.

(** The function with its dict as an argument: the pair of the value it
    returns and the final value of its local [expanded_query]. *)
Definition get_search_query_with (table : list (string * list string))
           (query : string) : string * string :=
  let expanded_query := lower query in
  let expanded_query := synonym_loop table expanded_query in
  (query, expanded_query).

Definition get_search_query (query : string) : string :=
  fst (get_search_query_with synonyms query).

(* ================================================================== *)
(** ** Exceptions *)

(** The exception classes the handlers of [main.py] tell apart.
    [RequestException] stands for [requests.exceptions.RequestException]
    and its subclasses, [HTTPException] for FastAPI's, [PyException] for
    every other subclass of [Exception] ([TypeError], [AttributeError],
    pydantic's [ValidationError]).  The string is [str(e)]. *)
Inductive exn : Type :=
| RequestException (msg : string)
| HTTPException (status_code : Z) (detail : string)
| PyException (msg : string).

Inductive result (A : Type) : Type :=
| Return (a : A)
| Raise (e : exn).
Arguments Return {A} a.
Arguments Raise {A} e.

Definition bind {A B} (m : result A) (k : A -> result B) : result B :=
  match m with
  | Return a => k a
  | Raise e => Raise e
  end.

Notation "x <- m ;; k" := (bind m (fun x => k))
  (at level 61, m at next level, right associativity).

(** [str(e)], as the f-strings of the handlers use it. *)
Definition exn_str (e : exn) : string :=
  match e with
  | RequestException msg => msg
  | HTTPException _ detail => detail
  | PyException msg => msg
  end.

(** [mapM] over a list: the first raise wins. *)
Fixpoint traverse {A B} (f : A -> result B) (l : list A) : result (list B) :=
  match l with
  | [] => Return []
  | a :: l' => b <- f a ;; bs <- traverse f l' ;; Return (b :: bs)
  end.

(* ================================================================== *)
(** ** The two upstream services *)

(** A parsed JSON value, as [response.json()] returns it. *)
Inductive json : Type :=
| JNull
| JBool (b : bool)
| JNum (n : Z)
| JStr (s : string)
| JArr (elems : list json)
| JObj (fields : list (string * json)).

(** What one [requests.get] comes to: no response at all, or a response
    with its status and its body ([None] when the body is not JSON). *)
Inductive http_outcome : Type :=
| ConnectionFailed (msg : string)
| HttpResponse (status : Z) (body : option json).

(** The outcome of the n-th request of a run, given url and parameters. *)
Definition World : Type :=
  nat -> string -> list (string * string) -> http_outcome.

Definition SMK_API_BASE_URL : string := "https://api.smk.dk/api/v1/art/search".
Definition SMK_ENRICHMENT_BASE_URL : string :=
  "https://enrichment.api.smk.dk/api/enrichment/".

Module Requests.

(** [requests.get(url, params=params)] *)
Definition get (w : World) (n : nat) (url : string)
           (params : list (string * string)) : result http_outcome :=
  match w n url params with
  | ConnectionFailed msg => Raise (RequestException msg)
  | r => Return r
  end.

(** The statuses [Response.raise_for_status] rejects: 4xx and 5xx. *)
Definition bad_status (status : Z) : bool :=
  ((400 <=? status) && (status <? 600))%Z.

(** [response.raise_for_status()]: [HTTPError] is a [RequestException]. *)
Definition raise_for_status (r : http_outcome) : result unit :=
  match r with
  | HttpResponse status _ =>
      if bad_status status then Raise (RequestException "HTTPError")
      else Return tt
  | ConnectionFailed msg => Raise (RequestException msg)
  end.

(** [response.json()]: requests raises its own [JSONDecodeError], a
    [RequestException], when the body does not parse. *)
Definition response_json (r : http_outcome) : result json :=
  match r with
  | HttpResponse _ (Some j) => Return j
  | HttpResponse _ None => Raise (RequestException "JSONDecodeError")
  | ConnectionFailed msg => Raise (RequestException msg)
  end.

End Requests.

Module PyJson.

(** Lookup in a parsed object. *)
Fixpoint lookup (key : string) (fields : list (string * json)) : option json :=
  match fields with
  | [] => None
  | (k, v) :: fields' => if String.eqb k key then Some v else lookup key fields'
  end.

(** [data.get(key, default)]: only a dict has [get]. *)
Definition dict_get (data : json) (key : string) (default : json)
  : result json :=
  match data with
  | JObj fields =>
      match lookup key fields with
      | Some v => Return v
      | None => Return default
      end
  | _ => Raise (PyException "AttributeError")
  end.

(** Truthiness of a parsed value. *)
Definition truthy (j : json) : bool :=
  match j with
  | JNull => false
  | JBool b => b
  | JNum n => negb (n =? 0)%Z
  | JStr s => truthy_str s
  | JArr elems => truthy_list elems
  | JObj fields => truthy_list fields
  end.

End PyJson.

(** Field validation of the pydantic models: a [str] field takes a JSON
    string, a [List[str]] field an array of strings, an [Optional] field
    also [null] or a missing key; anything else is a [ValidationError]. *)
Module Pydantic.

Definition validation_error {A} : result A :=
  Raise (PyException "ValidationError").

Definition str_field (j : json) : result string :=
  match j with
  | JStr s => Return s
  | _ => validation_error
  end.

Definition list_str_field (j : json) : result (list string) :=
  match j with
  | JArr elems => traverse str_field elems
  | _ => validation_error
  end.

Definition required {A} (f : json -> result A) (o : option json) : result A :=
  match o with
  | Some j => f j
  | None => validation_error
  end.

Definition optional {A} (f : json -> result A) (o : option json)
  : result (option A) :=
  match o with
  | None => Return None
  | Some JNull => Return None
  | Some j => a <- f j ;; Return (Some a)
  end.

(** The call [SMKItem] with [item] unpacked as keyword arguments: the
    unpacking needs a mapping. *)
Definition make_SMKItem (j : json) : result SMKItem :=
  match j with
  | JObj fields =>
      object_number <- required str_field (PyJson.lookup "object_number" fields) ;;
      titles <- required list_str_field (PyJson.lookup "titles" fields) ;;
      creator <- required str_field (PyJson.lookup "creator" fields) ;;
      image_thumbnail <- optional str_field (PyJson.lookup "image_thumbnail" fields) ;;
      description <- optional str_field (PyJson.lookup "description" fields) ;;
      Return (mkSMKItem object_number titles creator image_thumbnail description)
  | _ => Raise (PyException "TypeError")
  end.

(** The call [EnrichmentData] with [data] unpacked as keyword arguments. *)
Definition make_EnrichmentData (j : json) : result EnrichmentData :=
  match j with
  | JObj fields =>
      kalai_navn <- optional list_str_field (PyJson.lookup "கலை_navn" fields) ;;
      aghwera <- optional list_str_field (PyJson.lookup "აღწერა" fields) ;;
      Return (mkEnrichmentData kalai_navn aghwera)
  | _ => Raise (PyException "TypeError")
  end.

End Pydantic.

(** [fetch_smk_data] *)
Definition fetch_smk_data_body (w : World) (n : nat) (query : string)
  : result (list SMKItem) :=
  let fields := "object_number,titles,creator,image_thumbnail,description" in
  let params := [("keys", query); ("fields", fields)] in
  response <- Requests.get w n SMK_API_BASE_URL params ;;
  _ <- Requests.raise_for_status response ;;
  data <- Requests.response_json response ;;
  items <- PyJson.dict_get data "items" (JArr []) ;;
  if negb (PyJson.truthy items) then Return []
  else match items with
       | JArr elems => traverse Pydantic.make_SMKItem elems
       | _ => Raise (PyException "TypeError")
       end.

Definition fetch_smk_data (w : World) (n : nat) (query : string)
  : result (list SMKItem) :=
  match fetch_smk_data_body w n query with
  | Return items => Return items
  | Raise (RequestException msg) =>
      Raise (HTTPException 500
               ("Fejl ved hentning af data fra SMK API: " ++ msg)%string)
  | Raise e =>
      Raise (HTTPException 500 ("Uventet fejl: " ++ exn_str e)%string)
  end.

(** [fetch_enrichment_data] *)
Definition fetch_enrichment_data_body (w : World) (n : nat)
           (object_number : string) : result EnrichmentData :=
  let url := (SMK_ENRICHMENT_BASE_URL ++ object_number)%string in
  response <- Requests.get w n url [] ;;
  _ <- Requests.raise_for_status response ;;
  json_body <- Requests.response_json response ;;
  data <- PyJson.dict_get json_body "data" (JObj []) ;;
  Pydantic.make_EnrichmentData data.

Definition fetch_enrichment_data (w : World) (n : nat) (object_number : string)
  : result EnrichmentData :=
  match fetch_enrichment_data_body w n object_number with
  | Return e => Return e
  | Raise (RequestException _) => Return EnrichmentData_empty
  | Raise _ => Return EnrichmentData_empty
  end.

(* ================================================================== *)
(** ** rapidfuzz: [fuzz.ratio] and [process.extractOne] *)

Module RapidFuzz.

(** Length of a longest common subsequence. *)
Fixpoint lcs_len (s1 : string) : string -> nat :=
  match s1 with
  | EmptyString => fun _ => 0
  | String c1 s1' =>
      fix inner (s2 : string) : nat :=
        match s2 with
        | EmptyString => 0
        | String c2 s2' =>
            if Ascii.eqb c1 c2 then S (lcs_len s1' s2')
            else Nat.max (lcs_len s1' s2) (inner s2')
        end
  end.

(** [fuzz.ratio(s1, s2)]: the normalized Indel similarity on a 0..100
    scale.  Lengths and the common subsequence count bytes here, code
    points in rapidfuzz: the two agree on ASCII text.  The Indel distance is [len(s1) + len(s2) - 2 * lcs]; it is
    divided by [len(s1) + len(s2)] (taken as 0 when both are empty), taken
    from 1.0 and multiplied by 100. *)
Definition ratio (s1 s2 : string) : float :=
  let maximum := String.length s1 + String.length s2 in
  let dist := maximum - 2 * lcs_len s1 s2 in
  let norm_dist :=
    if (maximum =? 0)%nat then 0%float
    else (float_of_nat dist / float_of_nat maximum)%float in
  let norm_sim := (1 - norm_dist)%float in
  (norm_sim * 100)%float.

(** The triple [(choice, score, index)] that [extractOne] returns. *)
Definition Match : Type := (string * float * nat)%type.

(** The scan of [extractOne]: a choice replaces the best one so far only
    with a strictly higher score, so the first of several best wins. *)
Fixpoint extract_loop (scorer : string -> string -> float) (query : string)
         (choices : list string) (i : nat) (best : option Match)
  : option Match :=
  match choices with
  | [] => best
  | choice :: choices' =>
      let score := scorer query choice in
      let best :=
        match best with
        | None => Some (choice, score, i)
        | Some (_, best_score, _) =>
            if (best_score <? score)%float then Some (choice, score, i)
            else best
        end in
      extract_loop scorer query choices' (S i) best
  end.

(** [process.extractOne(query, choices, scorer=scorer)]: [None] when there
    is no choice. *)
Definition extractOne (query : string) (choices : list string)
           (scorer : string -> string -> float) : option Match :=
  extract_loop scorer query choices 0 None.

End RapidFuzz.

(** [best_match[1]]: subscripting [None] is a [TypeError]. *)
Definition subscript_1 (best_match : option RapidFuzz.Match) : result float :=
  match best_match with
  | Some (_, score, _) => Return score
  | None => Raise (PyException "'NoneType' object is not subscriptable")
  end.

(* ================================================================== *)
(** ** [list.sort(key=..., reverse=True)] *)

Section ListSort.

Context {A : Type}.
Variable key : A -> float.

(** Stable insertion for a descending order: [x], which comes before
    everything in [l] in the input, goes in front of the first element
    whose key is not strictly greater. *)
Fixpoint insert_reverse (x : A) (l : list A) : list A :=
  match l with
  | [] => [x]
  | y :: l' =>
      if (key x <? key y)%float then y :: insert_reverse x l'
      else x :: y :: l'
  end.

(** The stable descending sort. *)
Definition sort_reverse (l : list A) : list A :=
  fold_right insert_reverse [] l.

(** Each element is at least as large as its successor. *)
Fixpoint chain (l : list A) : Prop :=
  match l with
  | [] => True
  | x :: l' =>
      match l' with
      | [] => True
      | y :: _ => (key y <=? key x)%float = true
      end /\ chain l'
  end.

End ListSort.

(* ================================================================== *)
(** ** [search_smk] *)

(** Lines 201-205: [for item in items: best_match = ...;
      if best_match[1] >= 80: best_match_items.append(item)] *)
Fixpoint fuzzy_loop (query : string) (items : list SMKItem)
         (best_match_items : list SMKItem) : result (list SMKItem) :=
  match items with
  | [] => Return best_match_items
  | item :: items' =>
      let best_match :=
        RapidFuzz.extractOne query (titles item) RapidFuzz.ratio in
      score <- subscript_1 best_match ;;
      let best_match_items :=
        if py_ge score 80 then best_match_items ++ [item]
        else best_match_items in
      fuzzy_loop query items' best_match_items
  end.

(** Lines 200-207, the fuzzy-matching stage: the loop, then
    [if not best_match_items: best_match_items = items]. *)
Definition fuzzy_filter (query : string) (items : list SMKItem)
  : result (list SMKItem) :=
  best_match_items <- fuzzy_loop query items [] ;;
  Return (if negb (truthy_list best_match_items) then items
          else best_match_items).

(** Lines 208-213, the scoring stage; [n] numbers the next request. *)
Fixpoint score_loop (w : World) (n : nat) (query : string)
         (best_match_items : list SMKItem) (results : list CombinedResult)
  : result (list CombinedResult) :=
  match best_match_items with
  | [] => Return results
  | item :: items' =>
      enrichment_data <- fetch_enrichment_data w n (object_number item) ;;
      let relevance := calculate_relevance item enrichment_data query in
      let combined_result := mkCombinedResult item enrichment_data relevance in
      score_loop w (S n) query items' (results ++ [combined_result])
  end.

(** Lines 199-214: everything up to and including the sort, that is the
    ranked sequence before expansion. *)
Definition ranked_results (w : World) (query : string)
  : result (list CombinedResult) :=
  items <- fetch_smk_data w 0 query ;;
  best_match_items <- fuzzy_filter query items ;;
  results <- score_loop w 1 query best_match_items [] ;;
  Return (sort_reverse relevance results).

(** The [try] block of [search_smk]; the returned list is the value under
    the key ["results"] of the response. *)
Definition search_smk_body (w : World) (query : string)
  : result (list CombinedResult) :=
  results <- ranked_results w query ;;
  let results := filter_and_expand_results results query in
  Return results.

(** [search_smk]: an [HTTPException] is raised again, any other exception
    becomes an [HTTPException] with status 500. *)
Definition search_smk (w : World) (query : string)
  : result (list CombinedResult) :=
  match search_smk_body w query with
  | Return results => Return results
  | Raise (HTTPException status_code detail) =>
      Raise (HTTPException status_code detail)
  | Raise e =>
      Raise (HTTPException 500 ("Uventet fejl: " ++ exn_str e)%string)
  end.

(* ================================================================== *)
(** * Vocabulary of the stated properties *)

(** The lowered query occurs in the lowering of a field. *)
Definition matches (query_lower : string) (field : string) : bool :=
  str_in query_lower (lower field).

(** +0.5 when the query occurs in some title. *)
Definition title_contribution (item : SMKItem) (query : string) : float :=
  if existsb (matches (lower query)) (titles item) then 0.5%float else 0%float.

(** +0.3 when the query occurs in the creator. *)
Definition creator_contribution (item : SMKItem) (query : string) : float :=
  if matches (lower query) (creator item) then 0.3%float else 0%float.

(** +0.2 when the description is present, not empty, and the query occurs
    in it. *)
Definition description_contribution (item : SMKItem) (query : string) : float :=
  match description item with
  | Some d =>
      if truthy_str d && matches (lower query) d then 0.2%float else 0%float
  | None => 0%float
  end.

(** The description contribution in the wording "present and contains the
    query", with no word on emptiness. *)
Definition description_contribution_claimed (item : SMKItem) (query : string)
  : float :=
  match description item with
  | Some d => if matches (lower query) d then 0.2%float else 0%float
  | None => 0%float
  end.

(** +0.2 when the description attribute of the enrichment is present, not
    empty, and the query occurs in one of its entries. *)
Definition enrichment_contribution (e : EnrichmentData) (query : string)
  : float :=
  match აღწერა e with
  | Some (d :: ds) =>
      if existsb (matches (lower query)) (d :: ds) then 0.2%float else 0%float
  | _ => 0%float
  end.

(** The sum of the four contributions, in the order they are listed. *)
Definition contribution_sum (item : SMKItem) (e : EnrichmentData)
           (query : string) : float :=
  (title_contribution item query + creator_contribution item query
   + description_contribution item query + enrichment_contribution e query)%float.

(** The score in the wording of the claim: the clamped sum with the
    description contribution as claimed. *)
Definition claimed_relevance (item : SMKItem) (e : EnrichmentData)
           (query : string) : float :=
  py_min 1
    (title_contribution item query + creator_contribution item query
     + description_contribution_claimed item query
     + enrichment_contribution e query)%float.

(** Membership of the closed interval from 0 to 1. *)
Definition in_unit_interval (r : float) : Prop :=
  (0 <=? r)%float = true /\ (r <=? 1)%float = true.

(** Every value the scorer can return: the clamped sums over the sixteen
    ways the four contributions can be present or absent. *)
Definition score_values : list float :=
  flat_map (fun t =>
  flat_map (fun c =>
  flat_map (fun d =>
  map (fun e => py_min 1 (t + c + d + e)%float)
      [0%float; 0.2%float])
      [0%float; 0.2%float])
      [0%float; 0.3%float])
      [0%float; 0.5%float].

(** Adjacent elements never increase in relevance. *)
Definition descending (l : list CombinedResult) : Prop :=
  forall i a b,
    nth_error l i = Some a -> nth_error l (S i) = Some b ->
    (relevance b <=? relevance a)%float = true.

(** The results of [l] that have the relevance of [x], in their order. *)
Definition with_relevance_of (x : CombinedResult) (l : list CombinedResult)
  : list CombinedResult :=
  filter (fun y => (relevance y =? relevance x)%float) l.

(** The enrichment request brought nothing usable: no response, a status
    that [raise_for_status] rejects, or a payload that is not of the
    expected shape.  The expected shape is an object whose ["data"], when
    there is one, is an object whose two attributes, when they are there
    and not [null], are arrays of strings. *)
Definition is_str (j : json) : bool :=
  match j with JStr _ => true | _ => false end.

Definition attribute_ok (o : option json) : bool :=
  match o with
  | None => true
  | Some JNull => true
  | Some (JArr elems) => forallb is_str elems
  | Some _ => false
  end.

Definition data_ok (j : json) : bool :=
  match j with
  | JObj fields =>
      attribute_ok (PyJson.lookup "கலை_navn" fields)
      && attribute_ok (PyJson.lookup "აღწერა" fields)
  | _ => false
  end.

Definition payload_ok (body : option json) : bool :=
  match body with
  | Some (JObj fields) =>
      match PyJson.lookup "data" fields with
      | None => true
      | Some d => data_ok d
      end
  | _ => false
  end.

Definition enrichment_failed (o : http_outcome) : bool :=
  match o with
  | ConnectionFailed _ => true
  | HttpResponse status body =>
      Requests.bad_status status || negb (payload_ok body)
  end.

(** The failure of an enrichment request in the wording "any non-success
    status": every status outside 200..299 counts. *)
Definition success_status (status : Z) : bool :=
  ((200 <=? status) && (status <? 300))%Z.

Definition enrichment_failed_claimed (o : http_outcome) : bool :=
  match o with
  | ConnectionFailed _ => true
  | HttpResponse status body =>
      negb (success_status status) || negb (payload_ok body)
  end.

(** A world where the enrichment service answers 300 (Multiple Choices)
    with a payload of the expected shape. *)
Definition status_300_world : World :=
  fun n url params =>
    HttpResponse 300
      (Some (JObj [("data", JObj [("აღწერა", JArr [JStr "a red rose"])])])).

(** The query occurs in an entry of the description attribute: the
    condition under which related-work discovery is called. *)
Definition expansion_triggered (e : EnrichmentData) (query : string) : bool :=
  match აღწერა e with
  | Some ds => existsb (matches (lower query)) ds
  | None => false
  end.

(** The item is retained by the threshold of the fuzzy filter. *)
Definition retained (query : string) (item : SMKItem) : bool :=
  match RapidFuzz.extractOne query (titles item) RapidFuzz.ratio with
  | Some (_, score, _) => py_ge score 80
  | None => false
  end.

(** The scenario of one catalogued rose: the catalog answers with one item
    titled "Red Rose" by "Anon" without description, the enrichment
    service with an empty [data] object. *)
Definition red_rose : SMKItem := mkSMKItem "KMS1" ["Red Rose"] "Anon" None None.

Definition rose_world : World :=
  fun n url params =>
    match n with
    | 0 =>
        HttpResponse 200
          (Some (JObj [("items",
             JArr [JObj [("object_number", JStr "KMS1");
                         ("titles", JArr [JStr "Red Rose"]);
                         ("creator", JStr "Anon")]])]))
    | _ => HttpResponse 200 (Some (JObj [("data", JObj [])]))
    end.

(** A catalog answer with an item that has no title, and one where the
    enrichment service is down. *)
Definition untitled_world : World :=
  fun n url params =>
    match n with
    | 0 =>
        HttpResponse 200
          (Some (JObj [("items",
             JArr [JObj [("object_number", JStr "KMS1");
                         ("titles", JArr []);
                         ("creator", JStr "Anon")]])]))
    | _ => HttpResponse 200 (Some (JObj [("data", JObj [])]))
    end.

Definition enrichment_down_world : World :=
  fun n url params =>
    match n with
    | 0 => rose_world 0 url params
    | _ => HttpResponse 500 None
    end.

(** Three roses: the second one is by a painter called Rose, the first and
    the third tie on relevance. *)
Definition rose_a : SMKItem := mkSMKItem "KMS1" ["Rose"] "Anon" None None.
Definition rose_b : SMKItem := mkSMKItem "KMS2" ["Rose"] "Rose Painter" None None.
Definition rose_c : SMKItem := mkSMKItem "KMS3" ["Rose"] "Anonymous" None None.

Definition garden_world : World :=
  fun n url params =>
    match n with
    | 0 =>
        HttpResponse 200
          (Some (JObj [("items",
             JArr [JObj [("object_number", JStr "KMS1");
                         ("titles", JArr [JStr "Rose"]);
                         ("creator", JStr "Anon")];
                   JObj [("object_number", JStr "KMS2");
                         ("titles", JArr [JStr "Rose"]);
                         ("creator", JStr "Rose Painter")];
                   JObj [("object_number", JStr "KMS3");
                         ("titles", JArr [JStr "Rose"]);
                         ("creator", JStr "Anonymous")]])]))
    | _ => HttpResponse 200 (Some (JObj [("data", JObj [])]))
    end.

Definition garden_ranking : list CombinedResult :=
  [ mkCombinedResult rose_b EnrichmentData_empty 0.8%float;
    mkCombinedResult rose_a EnrichmentData_empty 0.5%float;
    mkCombinedResult rose_c EnrichmentData_empty 0.5%float ].

(** The strings of an array of JSON strings, and the value a payload gives
    an attribute of the enrichment: the list of an array, nothing for a
    missing key or [null]. *)
Definition strings_of (elems : list json) : list string :=
  flat_map (fun j => match j with JStr s => [s] | _ => [] end) elems.

Definition attribute_value (o : option json) : option (list string) :=
  match o with
  | Some (JArr elems) => Some (strings_of elems)
  | _ => None
  end.

(** The fields of the ["data"] object of an enrichment payload; none when
    the key is missing. *)
Definition data_fields (fields : list (string * json)) : list (string * json) :=
  match PyJson.lookup "data" fields with
  | Some (JObj d) => d
  | _ => []
  end.

(** The url and the parameters of the catalog request. *)
Definition catalog_params (query : string) : list (string * string) :=
  [("keys", query);
   ("fields", "object_number,titles,creator,image_thumbnail,description")].

(** A JSON object holds the fields of an item. *)
Definition holds_item (fields : list (string * json)) (it : SMKItem) : Prop :=
  PyJson.lookup "object_number" fields = Some (JStr (object_number it))
  /\ PyJson.lookup "titles" fields = Some (JArr (map JStr (titles it)))
  /\ PyJson.lookup "creator" fields = Some (JStr (creator it))
  /\ match image_thumbnail it with
     | Some s => PyJson.lookup "image_thumbnail" fields = Some (JStr s)
     | None => PyJson.lookup "image_thumbnail" fields = None
               \/ PyJson.lookup "image_thumbnail" fields = Some JNull
     end
  /\ match description it with
     | Some s => PyJson.lookup "description" fields = Some (JStr s)
     | None => PyJson.lookup "description" fields = None
               \/ PyJson.lookup "description" fields = Some JNull
     end.

(** Worlds for the edge cases of the catalog: the service is down, it
    answers without items, one of its items lacks a creator. *)
Definition catalog_down_world : World :=
  fun n url params => HttpResponse 503 None.

Definition empty_catalog_world : World :=
  fun n url params => HttpResponse 200 (Some (JObj [("items", JArr [])])).

Definition broken_item_world : World :=
  fun n url params =>
    HttpResponse 200
      (Some (JObj [("items",
         JArr [JObj [("object_number", JStr "KMS1");
                     ("titles", JArr [JStr "Rose"]);
                     ("creator", JStr "Anon")];
               JObj [("object_number", JStr "KMS2");
                     ("titles", JArr [JStr "Rose"])]])])).

(** The garden with the enrichment of the second rose down, and with an
    enrichment that mentions the query for the first rose. *)
Definition garden_world_b_down : World :=
  fun n url params =>
    match n with
    | 2 => HttpResponse 500 None
    | _ => garden_world n url params
    end.

Definition rose_note : EnrichmentData :=
  mkEnrichmentData None (Some ["a red rose"]).

Definition garden_world_b_note : World :=
  fun n url params =>
    match n with
    | 2 => HttpResponse 200
             (Some (JObj [("data", JObj [("აღწერა", JArr [JStr "a red rose"])])]))
    | _ => garden_world n url params
    end.

(* ================================================================== *)
(** * Properties *)

(** ** Strings *)

Lemma prefix_iff (n h : string) :
  String.prefix n h = true <-> exists post, h = (n ++ post)%string.
Proof.
  revert h; induction n as [|c n IH]; intros h.
  - destruct h; simpl; (split; [intros _; eexists; reflexivity | reflexivity]).
  - destruct h as [|d h]; simpl.
    + split; [discriminate | intros [post H]; discriminate].
    + destruct (ascii_dec c d) as [->|Hne].
      * rewrite IH. split; intros [post H]; exists post.
        -- now rewrite H.
        -- now inversion H.
      * split; [discriminate | intros [post H]; inversion H; congruence].
Qed.

Lemma str_in_unfold (n h : string) :
  str_in n h =
  String.prefix n h
  || match h with EmptyString => false | String _ h' => str_in n h' end.
Proof. destruct h; simpl; now destruct n. Qed.

(** [str_in] decides [substring_of]. *)
Lemma str_in_iff (n h : string) :
  str_in n h = true <-> substring_of n h.
Proof.
  unfold substring_of. induction h as [|d h IH];
    rewrite str_in_unfold, orb_true_iff, prefix_iff.
  - split.
    + intros [[post H]|H]; [|discriminate]. now exists "", post.
    + intros [pre [post H]]. left. destruct pre; [now exists post|discriminate].
  - rewrite IH. split.
    + intros [[post H]|[pre [post H]]].
      * now exists "", post.
      * exists (String d pre), post. simpl. now rewrite H.
    + intros [pre [post H]]. destruct pre as [|c pre]; simpl in H.
      * left. now exists post.
      * right. inversion H. now exists pre, post.
Qed.

(** ** The loops of the scorer as searches *)

Lemma title_loop_existsb (ql : string) (ts : list string) (score : float) :
  title_loop ql ts score =
  if existsb (matches ql) ts then (score + 0.5)%float else score.
Proof.
  induction ts as [|t ts IH]; simpl; [reflexivity|].
  unfold matches at 1. destruct (str_in ql (lower t)); simpl; [reflexivity|exact IH].
Qed.

Lemma desc_loop_existsb (ql : string) (ds : list string) (score : float) :
  desc_loop ql ds score =
  if existsb (matches ql) ds then (score + 0.2)%float else score.
Proof.
  induction ds as [|d ds IH]; simpl; [reflexivity|].
  unfold matches at 1. destruct (str_in ql (lower d)); simpl; [reflexivity|exact IH].
Qed.

(** [existsb (matches ql)] says: the lowered query is a substring of the
    lowering of some entry. *)
Lemma existsb_matches_iff (ql : string) (l : list string) :
  existsb (matches ql) l = true <->
  exists s, In s l /\ substring_of ql (lower s).
Proof.
  rewrite existsb_exists. unfold matches.
  split; intros [s [Hin H]]; exists s; split; auto; now apply str_in_iff.
Qed.

(** ** The relevance score *)

(** The score before the clamp is the sum of the four contributions. *)
Lemma raw_score_sum (item : SMKItem) (e : EnrichmentData) (query : string) :
  raw_score item e query = contribution_sum item e query.
Proof.
  unfold raw_score, contribution_sum, title_contribution, creator_contribution,
    description_contribution, enrichment_contribution, truthy_model,
    hasattr_field, truthy_opt_list.
  rewrite title_loop_existsb. fold (matches (lower query) (creator item)).
  destruct (existsb (matches (lower query)) (titles item));
    destruct (matches (lower query) (creator item));
    (destruct (description item) as [d|];
     [ fold (matches (lower query) d);
       destruct (truthy_str d && matches (lower query) d) | ]);
    (destruct (აღწერა e) as [[|d0 ds]|]; simpl andb; cbv iota;
     [ | rewrite desc_loop_existsb;
         destruct (existsb (matches (lower query)) (d0 :: ds)) | ]);
    reflexivity.
Qed.

(** Two floats with different comparisons against a third are different. *)
Lemma float_neq_by_eqb (a b : float) :
  (a =? a)%float = true -> (a =? b)%float = false -> a <> b.
Proof. intros Ha Hab E. rewrite <- E in Hab. congruence. Qed.

(** What each contribution stands for. *)
Lemma title_contribution_iff (item : SMKItem) (query : string) :
  title_contribution item query = 0.5%float <->
  exists t, In t (titles item) /\ substring_of (lower query) (lower t).
Proof.
  rewrite <- existsb_matches_iff. unfold title_contribution.
  destruct (existsb (matches (lower query)) (titles item)).
  - split; reflexivity.
  - split; [intros H|discriminate].
    now apply (float_neq_by_eqb 0 0.5) in H.
Qed.

Lemma creator_contribution_iff (item : SMKItem) (query : string) :
  creator_contribution item query = 0.3%float <->
  substring_of (lower query) (lower (creator item)).
Proof.
  rewrite <- str_in_iff. unfold creator_contribution, matches.
  destruct (str_in (lower query) (lower (creator item))).
  - split; reflexivity.
  - split; [intros H|discriminate].
    now apply (float_neq_by_eqb 0 0.3) in H.
Qed.

Lemma description_contribution_iff (item : SMKItem) (query : string) :
  description_contribution item query = 0.2%float <->
  exists d, description item = Some d /\ d <> ""
            /\ substring_of (lower query) (lower d).
Proof.
  unfold description_contribution, matches.
  destruct (description item) as [d|].
  - destruct (truthy_str d && str_in (lower query) (lower d)) eqn:E.
    + apply andb_true_iff in E as [Ht Hs]. split; [intros _|reflexivity].
      exists d. repeat split; [now destruct d|now apply str_in_iff].
    + split; [intros H; now apply (float_neq_by_eqb 0 0.2) in H|].
      intros [d' [Hd [Hne Hs]]]. injection Hd as <-.
      apply str_in_iff in Hs. rewrite Hs in E.
      destruct d; [contradiction|discriminate].
  - split; [intros H; now apply (float_neq_by_eqb 0 0.2) in H|].
    intros [d [Hd _]]. discriminate.
Qed.

Lemma enrichment_contribution_iff (e : EnrichmentData) (query : string) :
  enrichment_contribution e query = 0.2%float <->
  exists ds, აღწერა e = Some ds /\ ds <> []
             /\ exists d, In d ds /\ substring_of (lower query) (lower d).
Proof.
  unfold enrichment_contribution.
  destruct (აღწერა e) as [[|d0 ds]|].
  - split; [intros H; now apply (float_neq_by_eqb 0 0.2) in H|].
    intros [ds [Hd [Hne _]]]. injection Hd as <-. contradiction.
  - destruct (existsb (matches (lower query)) (d0 :: ds)) eqn:E.
    + split; [intros _|reflexivity]. exists (d0 :: ds).
      repeat split; [discriminate|now apply existsb_matches_iff].
    + split; [intros H; now apply (float_neq_by_eqb 0 0.2) in H|].
      intros [ds' [Hd [_ Hex]]]. injection Hd as <-.
      apply existsb_matches_iff in Hex. congruence.
  - split; [intros H; now apply (float_neq_by_eqb 0 0.2) in H|].
    intros [ds [Hd _]]. discriminate.
Qed.

(** C1 (as amended): for every item, enrichment and query the relevance is
    [min(1, s)], with [s] the sum of the four independent contributions:
    0.5 when the lowered query is a substring of some lowered title (once,
    however many titles match), 0.3 when it is a substring of the lowered
    creator, 0.2 when the description is present, not empty and contains
    it, 0.2 when the description attribute of the enrichment is present,
    not empty and one of its entries contains it. *)
Theorem C1_relevance_is_clamped_sum :
  forall (item : SMKItem) (e : EnrichmentData) (query : string),
    calculate_relevance item e query
    = py_min 1 (title_contribution item query
                + creator_contribution item query
                + description_contribution item query
                + enrichment_contribution e query)%float.
Proof.
  intros. unfold calculate_relevance. now rewrite raw_score_sum.
Qed.

(** C1, as stated, fails: with an empty query and a description that is
    present but empty, the description counts for the stated score and
    does not count for the code. *)
Lemma C1_counterexample_empty_description :
  let item := mkSMKItem "KMS1" [] "" None (Some "") in
  calculate_relevance item EnrichmentData_empty "" = 0.3%float
  /\ claimed_relevance item EnrichmentData_empty "" = 0.5%float
  /\ calculate_relevance item EnrichmentData_empty ""
     <> claimed_relevance item EnrichmentData_empty "".
Proof.
  cbv zeta. split; [reflexivity|]. split; [reflexivity|].
  apply float_neq_by_eqb; reflexivity.
Qed.

(** ** The values of the scorer and their order *)

Lemma relevance_in_score_values (item : SMKItem) (e : EnrichmentData)
      (query : string) :
  In (calculate_relevance item e query) score_values.
Proof.
  unfold calculate_relevance. rewrite raw_score_sum.
  unfold contribution_sum, title_contribution, creator_contribution,
    description_contribution, enrichment_contribution.
  destruct (existsb (matches (lower query)) (titles item));
    destruct (matches (lower query) (creator item));
    (destruct (description item) as [d|];
     [destruct (truthy_str d && matches (lower query) d)|]);
    (destruct (აღწერა e) as [[|d0 ds]|];
     [|destruct (existsb (matches (lower query)) (d0 :: ds))|]);
    vm_compute; repeat (first [left; reflexivity | right]).
Qed.

(** A property checked on each of the finitely many score values. *)
Lemma score_values_forall (P : float -> bool) :
  forallb P score_values = true ->
  forall r, In r score_values -> P r = true.
Proof. intros H r Hr. now apply (proj1 (forallb_forall P score_values) H). Qed.

Lemma score_values_unit (r : float) :
  In r score_values -> in_unit_interval r.
Proof.
  intros Hr. split.
  - now apply (score_values_forall (fun r => (0 <=? r)%float)).
  - now apply (score_values_forall (fun r => (r <=? 1)%float)).
Qed.

(** The same for a property of two score values. *)
Lemma score_values_forall2 (P : float -> float -> bool) :
  forallb (fun a => forallb (P a) score_values) score_values = true ->
  forall a b, In a score_values -> In b score_values -> P a b = true.
Proof.
  intros H a b Ha Hb.
  apply (score_values_forall (P a)); [|exact Hb].
  now apply (score_values_forall (fun a => forallb (P a) score_values)).
Qed.

(** On score values [<?] and [<=?] are the two halves of a total order,
    and [=?] excludes [<?]. *)
Lemma score_lt_le (a b : float) :
  In a score_values -> In b score_values ->
  (a <? b)%float = true -> (a <=? b)%float = true.
Proof.
  intros Ha Hb H.
  pose proof (score_values_forall2
    (fun a b => implb (a <? b)%float (a <=? b)%float) eq_refl a b Ha Hb) as C.
  simpl in C. now rewrite H in C.
Qed.

Lemma score_nlt_ge (a b : float) :
  In a score_values -> In b score_values ->
  (a <? b)%float = false -> (b <=? a)%float = true.
Proof.
  intros Ha Hb H.
  pose proof (score_values_forall2
    (fun a b => implb (negb (a <? b)%float) (b <=? a)%float)
    eq_refl a b Ha Hb) as C.
  simpl in C. now rewrite H in C.
Qed.

Lemma score_eq_nlt (a b v : float) :
  In a score_values -> In b score_values -> In v score_values ->
  (a =? v)%float = true -> (b =? v)%float = true -> (a <? b)%float = false.
Proof.
  intros Ha Hb Hv H1 H2.
  pose proof (score_values_forall2
    (fun a b => forallb (fun v =>
       implb ((a =? v)%float && (b =? v)%float) (negb (a <? b)%float))
       score_values) eq_refl a b Ha Hb) as C.
  cbv beta in C.
  pose proof (score_values_forall _ C v Hv) as C'. cbv beta in C'.
  rewrite H1, H2 in C'. simpl in C'. now destruct (a <? b)%float.
Qed.

(** ** The stable descending sort *)

Section ListSortFacts.

Context {A : Type}.
Variable key : A -> float.

(** The keys the facts are about, and what is needed of their order. *)
Variable valid : float -> Prop.
Hypothesis lt_le : forall a b, valid a -> valid b ->
  (a <? b)%float = true -> (a <=? b)%float = true.
Hypothesis nlt_ge : forall a b, valid a -> valid b ->
  (a <? b)%float = false -> (b <=? a)%float = true.
Hypothesis eq_nlt : forall a b v, valid a -> valid b -> valid v ->
  (a =? v)%float = true -> (b =? v)%float = true -> (a <? b)%float = false.

Let valid_all (l : list A) : Prop := Forall (fun x => valid (key x)) l.

Lemma insert_reverse_perm (x : A) (l : list A) :
  Permutation (x :: l) (insert_reverse key x l).
Proof.
  induction l as [|y l IH]; simpl; [reflexivity|].
  destruct (key x <? key y)%float; [|reflexivity].
  rewrite perm_swap. now constructor.
Qed.

Lemma sort_reverse_perm (l : list A) : Permutation l (sort_reverse key l).
Proof.
  induction l as [|x l IH]; simpl; [constructor|].
  rewrite <- insert_reverse_perm. now constructor.
Qed.

Lemma sort_reverse_valid (l : list A) :
  valid_all l -> valid_all (sort_reverse key l).
Proof.
  unfold valid_all. intros H. rewrite Forall_forall in *. intros x Hx.
  apply H. eapply Permutation_in; [symmetry; apply sort_reverse_perm|exact Hx].
Qed.

Lemma insert_reverse_chain (x : A) (l : list A) :
  valid (key x) -> valid_all l -> chain key l -> chain key (insert_reverse key x l).
Proof.
  intros Hx. induction l as [|y l IH]; intros Hl Hc; simpl; [auto|].
  inversion Hl as [|? ? Hy Hl']; subst.
  destruct (key x <? key y)%float eqn:E.
  - destruct Hc as [Hhd Hc]. specialize (IH Hl' Hc).
    split; [|exact IH].
    destruct l as [|z l]; simpl.
    + now apply lt_le.
    + destruct (key x <? key z)%float; [exact Hhd|now apply lt_le].
  - split; [now apply nlt_ge|exact Hc].
Qed.

Lemma sort_reverse_chain (l : list A) :
  valid_all l -> chain key (sort_reverse key l).
Proof.
  induction l as [|x l IH]; intros Hl; simpl; [exact I|].
  inversion Hl; subst.
  apply insert_reverse_chain; auto. now apply sort_reverse_valid.
Qed.

Lemma chain_nth (l : list A) :
  chain key l ->
  forall i a b, nth_error l i = Some a -> nth_error l (S i) = Some b ->
                (key b <=? key a)%float = true.
Proof.
  induction l as [|x l IH]; intros Hc i a b Ha Hb; [destruct i; discriminate|].
  destruct Hc as [Hhd Hc]. destruct i as [|i]; simpl in Ha, Hb.
  - injection Ha as <-. destruct l as [|y l]; [discriminate|].
    now injection Hb as <-.
  - now apply (IH Hc i).
Qed.

(** Insertion does not move [x] past an element of equal key. *)
Lemma insert_reverse_filter (v : float) (x : A) (l : list A) :
  valid v -> valid (key x) -> valid_all l ->
  filter (fun y => (key y =? v)%float) (insert_reverse key x l)
  = filter (fun y => (key y =? v)%float) (x :: l).
Proof.
  intros Hv Hx. induction l as [|y l IH]; intros Hl; [reflexivity|].
  inversion Hl as [|? ? Hy Hl']; subst. simpl.
  destruct (key x <? key y)%float eqn:E; [|reflexivity].
  simpl. rewrite (IH Hl'). simpl.
  destruct (key x =? v)%float eqn:Ex, (key y =? v)%float eqn:Ey; try reflexivity.
  rewrite (eq_nlt _ _ v Hx Hy Hv Ex Ey) in E. discriminate.
Qed.

Lemma sort_reverse_filter (v : float) (l : list A) :
  valid v -> valid_all l ->
  filter (fun y => (key y =? v)%float) (sort_reverse key l)
  = filter (fun y => (key y =? v)%float) l.
Proof.
  intros Hv. induction l as [|x l IH]; intros Hl; [reflexivity|].
  inversion Hl; subst. simpl sort_reverse.
  rewrite insert_reverse_filter; auto; [|now apply sort_reverse_valid].
  simpl. now rewrite IH.
Qed.

End ListSortFacts.

(** ** The enrichment client *)

Lemma traverse_str_field_bad (elems : list json) :
  forallb is_str elems = false ->
  traverse Pydantic.str_field elems = Raise (PyException "ValidationError").
Proof.
  induction elems as [|j elems IH]; simpl; [discriminate|].
  destruct j; simpl; try reflexivity.
  intros H. now rewrite (IH H).
Qed.

Lemma optional_list_str_bad (o : option json) :
  attribute_ok o = false ->
  Pydantic.optional Pydantic.list_str_field o
  = Raise (PyException "ValidationError").
Proof.
  destruct o as [[| | | |elems|]|]; simpl; try reflexivity; try discriminate.
  intros H. now rewrite (traverse_str_field_bad _ H).
Qed.

Lemma make_EnrichmentData_bad (d : json) :
  data_ok d = false -> exists e, Pydantic.make_EnrichmentData d = Raise e.
Proof.
  destruct d as [| | | | |fields]; simpl; try (intros _; eexists; reflexivity).
  intros H. apply andb_false_iff in H as [H|H].
  - rewrite (optional_list_str_bad _ H). eexists; reflexivity.
  - rewrite (optional_list_str_bad _ H).
    destruct (Pydantic.optional _ _); eexists; reflexivity.
Qed.

(** Whatever the body does, the function returns. *)
Lemma fetch_enrichment_data_returns (w : World) (n : nat) (id : string) :
  exists e, fetch_enrichment_data w n id = Return e.
Proof.
  unfold fetch_enrichment_data.
  destruct (fetch_enrichment_data_body w n id) as [e|[msg|s d|msg]];
    eexists; reflexivity.
Qed.

(** When the body raises, the function returns the empty enrichment. *)
Lemma fetch_enrichment_data_absorbs (w : World) (n : nat) (id : string) (e : exn) :
  fetch_enrichment_data_body w n id = Raise e ->
  fetch_enrichment_data w n id = Return EnrichmentData_empty.
Proof.
  unfold fetch_enrichment_data. intros ->. now destruct e.
Qed.

Lemma enrichment_failed_body_raises (w : World) (n : nat) (id : string) :
  enrichment_failed (w n (SMK_ENRICHMENT_BASE_URL ++ id)%string []) = true ->
  exists e, fetch_enrichment_data_body w n id = Raise e.
Proof.
  unfold fetch_enrichment_data_body, Requests.get.
  destruct (w n (SMK_ENRICHMENT_BASE_URL ++ id)%string []) as [msg|status body];
    simpl; [intros _; eexists; reflexivity|].
  destruct (Requests.bad_status status); simpl;
    [intros _; eexists; reflexivity|].
  destruct body as [j|]; simpl; [|intros _; eexists; reflexivity].
  destruct j as [| | | | |fields]; simpl; try (intros _; eexists; reflexivity).
  destruct (PyJson.lookup "data" fields) as [d|]; [|discriminate].
  intros H. apply negb_true_iff in H.
  unfold bind. now apply make_EnrichmentData_bad.
Qed.

(** C4, as stated, fails for the statuses that are neither a success nor
    rejected by [raise_for_status]: an answer with status 300 and a payload
    of the expected shape is decoded, and the enrichment returned is not
    the empty one. *)
Lemma C4_counterexample_status_300 :
  enrichment_failed_claimed
    (status_300_world 1 (SMK_ENRICHMENT_BASE_URL ++ "KMS1")%string []) = true
  /\ fetch_enrichment_data status_300_world 1 "KMS1"
     = Return (mkEnrichmentData None (Some ["a red rose"]))
  /\ აღწერა (mkEnrichmentData None (Some ["a red rose"])) <> None
  /\ mkEnrichmentData None (Some ["a red rose"]) <> EnrichmentData_empty.
Proof. repeat split; discriminate. Qed.

(** C4 (as amended): for every id and every outcome of the request,
    [fetch_enrichment_data] returns an enrichment and does not raise; when
    the request failed in transport, came back with a status that
    [raise_for_status] rejects (4xx, 5xx), or carried a malformed payload,
    the enrichment returned is the empty one. *)
Theorem C4_enrichment_failure_absorbed :
  forall (w : World) (n : nat) (id : string),
    exists e : EnrichmentData,
      fetch_enrichment_data w n id = Return e
      /\ (enrichment_failed (w n (SMK_ENRICHMENT_BASE_URL ++ id)%string []) = true ->
          e = EnrichmentData_empty
          /\ kalai_navn e = None /\ აღწერა e = None).
Proof.
  intros w n id.
  destruct (fetch_enrichment_data_returns w n id) as [e He].
  exists e. split; [exact He|]. intros Hf.
  destruct (enrichment_failed_body_raises w n id Hf) as [x Hx].
  rewrite (fetch_enrichment_data_absorbs w n id x Hx) in He.
  injection He as <-. repeat split.
Qed.

Lemma C4_witness_service_down :
  exists e : EnrichmentData,
    fetch_enrichment_data enrichment_down_world 1 "KMS1" = Return e
    /\ (enrichment_failed
          (enrichment_down_world 1 (SMK_ENRICHMENT_BASE_URL ++ "KMS1")%string [])
        = true ->
        e = EnrichmentData_empty /\ kalai_navn e = None /\ აღწერა e = None).
Proof. exact (C4_enrichment_failure_absorbed enrichment_down_world 1 "KMS1"). Defined.

(** The three kinds of failure, and a good answer, one request each. *)
Example enrichment_transport_failure :
  fetch_enrichment_data (fun _ _ _ => ConnectionFailed "timed out") 1 "KMS1"
  = Return EnrichmentData_empty.
Proof. reflexivity. Qed.

Example enrichment_status_500 :
  fetch_enrichment_data (fun _ _ _ => HttpResponse 500 (Some (JObj []))) 1 "KMS1"
  = Return EnrichmentData_empty.
Proof. reflexivity. Qed.

Example enrichment_malformed_payload :
  fetch_enrichment_data
    (fun _ _ _ => HttpResponse 200
       (Some (JObj [("data", JObj [("აღწერა", JStr "a rose")])]))) 1 "KMS1"
  = Return EnrichmentData_empty.
Proof. reflexivity. Qed.

Example enrichment_good_payload :
  fetch_enrichment_data
    (fun _ _ _ => HttpResponse 200
       (Some (JObj [("data", JObj [("აღწერა", JArr [JStr "a rose"])])]))) 1 "KMS1"
  = Return (mkEnrichmentData None (Some ["a rose"])).
Proof. reflexivity. Qed.

(** With the enrichment service down the search still answers. *)
Example search_with_enrichment_down :
  search_smk enrichment_down_world "rose"
  = Return [mkCombinedResult red_rose EnrichmentData_empty 0.5%float].
Proof. reflexivity. Qed.

(** ** Expansion *)

Section ExpansionFacts.

Variable discover : string -> list CombinedResult.

(** The inner loop: discovery is called once, for the first matching
    entry, and its results are appended. *)
Lemma expand_desc_loop_spec (query : string) (result : CombinedResult)
      (ds : list string) (st : ExpandState) :
  expand_desc_loop discover query result ds st
  = if existsb (matches (lower query)) ds
    then (fst st ++ discover (object_number (item result)),
          snd st ++ [object_number (item result)])
    else st.
Proof.
  induction ds as [|d ds IH]; simpl; [reflexivity|].
  unfold matches at 1. destruct (str_in (lower query) (lower d)); simpl.
  - destruct (discover (object_number (item result))) eqn:E; simpl;
      [now rewrite app_nil_r|reflexivity].
  - exact IH.
Qed.

Lemma expand_step_spec (query : string) (st : ExpandState)
      (result : CombinedResult) :
  expand_step discover query st result
  = if expansion_triggered (enrichment result) query
    then (fst st ++ result :: discover (object_number (item result)),
          snd st ++ [object_number (item result)])
    else (fst st ++ [result], snd st).
Proof.
  unfold expand_step, expansion_triggered, truthy_model, hasattr_field,
    truthy_opt_list.
  destruct (აღწერა (enrichment result)) as [[|d ds]|]; simpl andb; cbv iota;
    try reflexivity.
  rewrite expand_desc_loop_spec. cbn [fst snd].
  destruct (existsb (matches (lower query)) (d :: ds)); [|reflexivity].
  now rewrite <- app_assoc.
Qed.

(** The output of the loop: every result in order, each followed by what
    discovery returned for it when it triggered. *)
Lemma expand_loop_fst (items : list CombinedResult) (query : string) :
  fst (expand_loop discover items query)
  = flat_map (fun result =>
       result :: (if expansion_triggered (enrichment result) query
                  then discover (object_number (item result)) else []))
      items.
Proof.
  unfold expand_loop.
  assert (G : forall st,
    fst (fold_left (expand_step discover query) items st)
    = fst st ++ flat_map (fun result =>
        result :: (if expansion_triggered (enrichment result) query
                   then discover (object_number (item result)) else []))
        items).
  { induction items as [|r items IH]; intros st; simpl.
    - now rewrite app_nil_r.
    - rewrite IH, expand_step_spec.
      destruct (expansion_triggered (enrichment r) query); cbn [fst];
        now rewrite <- app_assoc. }
  now rewrite G.
Qed.

End ExpansionFacts.

(** With the discovery of the source, expansion changes nothing. *)
Lemma filter_and_expand_results_id (items : list CombinedResult)
      (query : string) :
  filter_and_expand_results items query = items.
Proof.
  unfold filter_and_expand_results. rewrite expand_loop_fst.
  induction items as [|r items IH]; simpl; [reflexivity|].
  rewrite IH. now destruct (expansion_triggered (enrichment r) query).
Qed.

(** ** The normaliser *)

(** C7: [get_search_query] returns its argument, for every query, whatever
    the synonym table holds and whether or not one of its keys occurs in
    the lowered query; the expansion it computes is not returned. *)
Theorem C7_normalizer_returns_input :
  (forall query : string, get_search_query query = query)
  /\ (forall (table : list (string * list string)) (query : string),
        fst (get_search_query_with table query) = query)
  /\ snd (get_search_query_with synonyms "En Blomst")
     = "blomst OR plante OR flora OR rose OR tulipan OR lilje"
  /\ get_search_query "En Blomst" = "En Blomst".
Proof. repeat split. Qed.

(** ** The pipeline, stage by stage *)

(** The scoring stage returns: one result per candidate, in order, each
    with the relevance the scorer gives it. *)
Lemma score_loop_returns (w : World) (query : string) (items : list SMKItem) :
  forall (n : nat) (results : list CombinedResult),
  exists scored,
    score_loop w n query items results = Return (results ++ scored)
    /\ map item scored = items
    /\ Forall (fun r => relevance r
                        = calculate_relevance (item r) (enrichment r) query)
              scored.
Proof.
  induction items as [|it items IH]; intros n results; simpl.
  - exists []. rewrite app_nil_r. repeat split. constructor.
  - destruct (fetch_enrichment_data_returns w n (object_number it)) as [e He].
    rewrite He. simpl.
    destruct (IH (S n) (results ++ [mkCombinedResult it e
                                      (calculate_relevance it e query)]))
      as [scored [Hs [Hm Hf]]].
    exists (mkCombinedResult it e (calculate_relevance it e query) :: scored).
    rewrite Hs, <- app_assoc. simpl. rewrite Hm. repeat split.
    constructor; [reflexivity|exact Hf].
Qed.

Lemma scored_values (query : string) (scored : list CombinedResult) :
  Forall (fun r => relevance r
                   = calculate_relevance (item r) (enrichment r) query) scored ->
  Forall (fun r => In (relevance r) score_values) scored.
Proof.
  intros H. eapply Forall_impl; [|exact H].
  intros r ->. apply relevance_in_score_values.
Qed.

(** What a returned ranking is made of. *)
Lemma ranked_results_inv (w : World) (query : string)
      (ranked : list CombinedResult) :
  ranked_results w query = Return ranked ->
  exists items candidates scored,
    fetch_smk_data w 0 query = Return items
    /\ fuzzy_filter query items = Return candidates
    /\ score_loop w 1 query candidates [] = Return scored
    /\ map item scored = candidates
    /\ Forall (fun r => In (relevance r) score_values) scored
    /\ ranked = sort_reverse relevance scored.
Proof.
  unfold ranked_results. intros H.
  destruct (fetch_smk_data w 0 query) as [items|e] eqn:Hi; [|discriminate].
  simpl in H.
  destruct (fuzzy_filter query items) as [candidates|e] eqn:Hc; [|discriminate].
  simpl in H.
  destruct (score_loop_returns w query candidates 1 []) as [scored [Hs [Hm Hf]]].
  simpl in Hs. rewrite Hs in H. simpl in H. injection H as <-.
  exists items, candidates, scored.
  split; [reflexivity|]. split; [exact Hc|]. split; [exact Hs|].
  split; [exact Hm|]. split; [|reflexivity].
  now apply (scored_values query).
Qed.

(** A returned response is the ranking. *)
Lemma search_smk_inv (w : World) (query : string)
      (results : list CombinedResult) :
  search_smk w query = Return results -> ranked_results w query = Return results.
Proof.
  unfold search_smk, search_smk_body. intros H.
  destruct (ranked_results w query) as [ranked|e]; simpl in H.
  - rewrite filter_and_expand_results_id in H. exact H.
  - destruct e; discriminate.
Qed.

(** ** Bounds *)

Lemma calculate_relevance_unit (item : SMKItem) (e : EnrichmentData)
      (query : string) :
  in_unit_interval (calculate_relevance item e query).
Proof. apply score_values_unit, relevance_in_score_values. Qed.

(** C2: the scorer's result lies in the closed interval from 0 to 1 for
    every item, enrichment and query, although the sum before the clamp
    reaches 1.2; and every result of a response that [search_smk] returns
    has its relevance in that interval. *)
Theorem C2_relevance_in_unit_interval :
  (forall (item : SMKItem) (e : EnrichmentData) (query : string),
      in_unit_interval (calculate_relevance item e query))
  /\ (exists (item : SMKItem) (e : EnrichmentData) (query : string),
        raw_score item e query = 1.2%float)
  /\ (forall (w : World) (query : string) (results : list CombinedResult),
        search_smk w query = Return results ->
        forall r, In r results -> in_unit_interval (relevance r)).
Proof.
  split; [exact calculate_relevance_unit|]. split.
  - exists (mkSMKItem "KMS1" ["Rose"] "Rose" None (Some "a rose")),
           (mkEnrichmentData None (Some ["rose"])), "rose".
    reflexivity.
  - intros w query results H r Hr.
    apply search_smk_inv, ranked_results_inv in H
      as [items [candidates [scored [_ [_ [_ [_ [Hv ->]]]]]]]].
    apply score_values_unit.
    rewrite Forall_forall in Hv. apply Hv.
    eapply Permutation_in; [symmetry; apply sort_reverse_perm|exact Hr].
Qed.

(** The bound at work on the one-rose scenario. *)
Lemma C2_witness_rose :
  search_smk rose_world "rose"
  = Return [mkCombinedResult red_rose EnrichmentData_empty 0.5%float]
  /\ in_unit_interval 0.5%float.
Proof.
  split; [reflexivity|].
  apply (proj2 (proj2 C2_relevance_in_unit_interval) rose_world "rose"
           [mkCombinedResult red_rose EnrichmentData_empty 0.5%float]
           eq_refl
           (mkCombinedResult red_rose EnrichmentData_empty 0.5%float)).
  left; reflexivity.
Defined.

(** ** Ranking *)

(** C5: when [search_smk] gets as far as a ranking, the ranked sequence
    (after scoring and sorting, before expansion) never increases in
    relevance from one element to the next, and the results of any one
    relevance stand in it in the order they have in the scored sequence,
    which is the order of the candidates fed into scoring. *)
Theorem C5_ranking_descending_stable :
  forall (w : World) (query : string) (ranked : list CombinedResult),
    ranked_results w query = Return ranked ->
    exists (candidates : list SMKItem) (scored : list CombinedResult),
      score_loop w 1 query candidates [] = Return scored
      /\ map item scored = candidates
      /\ ranked = sort_reverse relevance scored
      /\ Permutation scored ranked
      /\ descending ranked
      /\ (forall x, In x scored ->
            with_relevance_of x ranked = with_relevance_of x scored).
Proof.
  intros w query ranked H.
  apply ranked_results_inv in H
    as [items [candidates [scored [_ [_ [Hs [Hm [Hv ->]]]]]]]].
  exists candidates, scored. repeat split; auto.
  - apply sort_reverse_perm.
  - unfold descending.
    apply (chain_nth relevance).
    apply (sort_reverse_chain relevance (fun r => In r score_values)
             score_lt_le score_nlt_ge); exact Hv.
  - intros x Hx. unfold with_relevance_of.
    apply (sort_reverse_filter relevance (fun r => In r score_values)
             score_eq_nlt); [|exact Hv].
    rewrite Forall_forall in Hv. now apply Hv.
Qed.

(** The three roses are ranked painter first, the tie in catalog order. *)
Lemma garden_ranked : ranked_results garden_world "Rose" = Return garden_ranking.
Proof. reflexivity. Qed.

Lemma C5_witness_garden :
  exists (candidates : list SMKItem) (scored : list CombinedResult),
    score_loop garden_world 1 "Rose" candidates [] = Return scored
    /\ map item scored = candidates
    /\ garden_ranking = sort_reverse relevance scored
    /\ Permutation scored garden_ranking
    /\ descending garden_ranking
    /\ (forall x, In x scored ->
          with_relevance_of x garden_ranking = with_relevance_of x scored).
Proof.
  apply (C5_ranking_descending_stable garden_world "Rose" garden_ranking).
  reflexivity.
Defined.

(** ** The fuzzy filter *)

(** Over no choice at all [extractOne] has nothing to return. *)
Lemma extractOne_nil (query : string) (scorer : string -> string -> float) :
  RapidFuzz.extractOne query [] scorer = None.
Proof. reflexivity. Qed.

Lemma extract_loop_some (scorer : string -> string -> float) (query : string)
      (choices : list string) :
  forall i best,
    best <> None \/ choices <> [] ->
    exists m, RapidFuzz.extract_loop scorer query choices i best = Some m.
Proof.
  induction choices as [|c choices IH]; intros i best H; simpl.
  - destruct H as [H|H]; [|contradiction].
    destruct best as [m|]; [now exists m|contradiction].
  - apply IH. left. destruct best as [[[? ?] ?]|]; [|discriminate].
    destruct (_ <? _)%float; discriminate.
Qed.

(** The loop of the filter, when every item has a title: the items that
    pass the threshold, after those already collected. *)
Lemma fuzzy_loop_titled (query : string) (items : list SMKItem) :
  Forall (fun it => titles it <> []) items ->
  forall acc,
    fuzzy_loop query items acc = Return (acc ++ filter (retained query) items).
Proof.
  induction 1 as [|it items Hit _ IH]; intros acc; simpl.
  - now rewrite app_nil_r.
  - unfold retained at 1.
    destruct (extract_loop_some RapidFuzz.ratio query (titles it) 0 None
                (or_intror Hit)) as [[[c score] k] Hm].
    unfold RapidFuzz.extractOne. rewrite Hm. simpl.
    rewrite IH. destruct (py_ge score 80); [|reflexivity].
    now rewrite <- app_assoc.
Qed.

(** The filter, when every item has a title: the items that pass the
    threshold, or all of them when none passes; never empty on a
    non-empty input. *)
Lemma fuzzy_filter_titled (query : string) (items : list SMKItem) :
  Forall (fun it => titles it <> []) items ->
  exists kept,
    fuzzy_filter query items = Return kept
    /\ kept = (match filter (retained query) items with
               | [] => items
               | _ :: _ => filter (retained query) items
               end)
    /\ (items <> [] -> kept <> []).
Proof.
  intros H. unfold fuzzy_filter. rewrite (fuzzy_loop_titled query items H).
  simpl. destruct (filter (retained query) items) as [|it kept] eqn:E; simpl.
  - exists items. repeat split; auto.
  - exists (it :: kept). repeat split; auto. discriminate.
Qed.

(** The loop of the filter raises as soon as it meets an item without a
    title. *)
Lemma fuzzy_loop_untitled (query : string) (items : list SMKItem) :
  Exists (fun it => titles it = []) items ->
  forall acc,
    fuzzy_loop query items acc
    = Raise (PyException "'NoneType' object is not subscriptable").
Proof.
  induction 1 as [it items Hit|it items _ IH]; intros acc; simpl.
  - now rewrite Hit.
  - destruct (RapidFuzz.extractOne query (titles it) RapidFuzz.ratio)
      as [[[c score] k]|]; simpl; [apply IH|reflexivity].
Qed.

(** C3, on the code: with a catalog item that has no title the
    fuzzy-matching stage returns no sequence at all, neither the retained
    items nor the original input; it raises, and the search answers with
    status 500. *)
Theorem C3_filter_raises_on_untitled_item :
  let untitled := mkSMKItem "KMS1" [] "Anon" None None in
  fuzzy_filter "rose" [untitled]
  = Raise (PyException "'NoneType' object is not subscriptable")
  /\ search_smk untitled_world "rose"
     = Raise (HTTPException 500
                "Uventet fejl: 'NoneType' object is not subscriptable").
Proof. split; reflexivity. Qed.

(** C9: when the catalog response holds an item whose list of titles is
    empty, [extractOne] over that list returns [None], subscripting it
    raises in the fuzzy-matching stage, and [search_smk] raises an
    [HTTPException] with status 500 instead of returning results. *)
Theorem C9_untitled_item_aborts_search :
  forall (w : World) (query : string) (items : list SMKItem),
    fetch_smk_data w 0 query = Return items ->
    Exists (fun it => titles it = []) items ->
    (forall it, titles it = [] ->
       subscript_1 (RapidFuzz.extractOne query (titles it) RapidFuzz.ratio)
       = Raise (PyException "'NoneType' object is not subscriptable"))
    /\ fuzzy_filter query items
       = Raise (PyException "'NoneType' object is not subscriptable")
    /\ search_smk w query
       = Raise (HTTPException 500
                  "Uventet fejl: 'NoneType' object is not subscriptable").
Proof.
  intros w query items Hf Hex.
  split; [intros it ->; reflexivity|].
  assert (Hfilter : fuzzy_filter query items
            = Raise (PyException "'NoneType' object is not subscriptable")).
  { unfold fuzzy_filter. now rewrite (fuzzy_loop_untitled query items Hex). }
  split; [exact Hfilter|].
  unfold search_smk, search_smk_body, ranked_results.
  rewrite Hf. simpl. rewrite Hfilter. reflexivity.
Qed.

Lemma C9_witness_untitled :
  (forall it, titles it = [] ->
     subscript_1 (RapidFuzz.extractOne "rose" (titles it) RapidFuzz.ratio)
     = Raise (PyException "'NoneType' object is not subscriptable"))
  /\ fuzzy_filter "rose" [mkSMKItem "KMS1" [] "Anon" None None]
     = Raise (PyException "'NoneType' object is not subscriptable")
  /\ search_smk untitled_world "rose"
     = Raise (HTTPException 500
                "Uventet fejl: 'NoneType' object is not subscriptable").
Proof.
  apply (C9_untitled_item_aborts_search untitled_world "rose"
           [mkSMKItem "KMS1" [] "Anon" None None]).
  - reflexivity.
  - left. reflexivity.
Defined.

(** ** The one-rose scenario *)

(** C8, as stated, fails in its first part: the ratio of "rose" against
    "Red Rose" is 50 (three common characters out of twelve, twice), below
    80 also when case is ignored, and the item does not pass the
    threshold. *)
Lemma C8_counterexample_ratio_below_80 :
  RapidFuzz.ratio "rose" "Red Rose" = 50%float
  /\ py_ge (RapidFuzz.ratio "rose" "Red Rose") 80 = false
  /\ py_ge (RapidFuzz.ratio (lower "rose") (lower "Red Rose")) 80 = false
  /\ retained "rose" red_rose = false
  /\ fuzzy_loop "rose" [red_rose] [] = Return [].
Proof. repeat split. Qed.

(** C8 (as amended): for the query "rose" and a catalog response of one
    item titled "Red Rose" by "Anon", without description and with an empty
    enrichment, the ratio is 50, the item does not pass the threshold and
    is kept because nothing passes; its relevance is 0.5, from the title
    alone, and the ranked sequence (lines 199-214, what is handed to the
    expansion) holds exactly that one result with relevance 0.5. *)
Theorem C8_red_rose_kept_by_override :
  forall (w : World) (id : string) (thumbnail : option string),
    let rose := mkSMKItem id ["Red Rose"] "Anon" thumbnail None in
    fetch_smk_data w 0 "rose" = Return [rose] ->
    fetch_enrichment_data w 1 id = Return EnrichmentData_empty ->
    RapidFuzz.ratio "rose" "Red Rose" = 50%float
    /\ retained "rose" rose = false
    /\ fuzzy_filter "rose" [rose] = Return [rose]
    /\ title_contribution rose "rose" = 0.5%float
    /\ creator_contribution rose "rose" = 0%float
    /\ calculate_relevance rose EnrichmentData_empty "rose" = 0.5%float
    /\ ranked_results w "rose"
       = Return [mkCombinedResult rose EnrichmentData_empty 0.5%float].
Proof.
  intros w id thumbnail rose Hc He.
  do 6 (split; [reflexivity|]).
  unfold ranked_results.
  rewrite Hc. simpl bind. cbv beta.
  change (fuzzy_filter "rose" [rose]) with (Return [rose]).
  simpl bind. cbv beta. unfold score_loop.
  change (object_number rose) with id. rewrite He. reflexivity.
Qed.

Lemma C8_witness_rose_world :
  RapidFuzz.ratio "rose" "Red Rose" = 50%float
  /\ retained "rose" red_rose = false
  /\ fuzzy_filter "rose" [red_rose] = Return [red_rose]
  /\ title_contribution red_rose "rose" = 0.5%float
  /\ creator_contribution red_rose "rose" = 0%float
  /\ calculate_relevance red_rose EnrichmentData_empty "rose" = 0.5%float
  /\ ranked_results rose_world "rose"
     = Return [mkCombinedResult red_rose EnrichmentData_empty 0.5%float].
Proof.
  apply (C8_red_rose_kept_by_override rose_world "KMS1" None); reflexivity.
Defined.

(** ** What is read of the enrichment *)

(** C10: two enrichments that agree on the description attribute, whatever
    their other attribute, give every item and query the same relevance
    and the same expansion: discovery is called for both or for neither,
    and what is appended after the result is the same. *)
Theorem C10_only_description_attribute_read :
  forall (it : SMKItem) (query : string) (e1 e2 : EnrichmentData),
    აღწერა e1 = აღწერა e2 ->
    calculate_relevance it e1 query = calculate_relevance it e2 query
    /\ expansion_triggered e1 query = expansion_triggered e2 query
    /\ (forall (discover : string -> list CombinedResult) (r : float)
               (st : ExpandState),
          exists related calls,
            expand_step discover query st (mkCombinedResult it e1 r)
            = (fst st ++ mkCombinedResult it e1 r :: related, snd st ++ calls)
            /\ expand_step discover query st (mkCombinedResult it e2 r)
               = (fst st ++ mkCombinedResult it e2 r :: related,
                  snd st ++ calls)).
Proof.
  intros it query [k1 d1] [k2 d2] H. simpl in H. subst d2.
  split; [reflexivity|]. split; [reflexivity|].
  intros discover r st. rewrite !expand_step_spec. simpl.
  unfold expansion_triggered. simpl.
  destruct (match d1 with Some ds => existsb (matches (lower query)) ds
                     | None => false end).
  - exists (discover (object_number it)), [object_number it]. now split.
  - exists [], []. rewrite !app_nil_r. now split.
Qed.

Lemma C10_witness_two_enrichments :
  let e1 := mkEnrichmentData (Some ["Anon"]) (Some ["a red rose"]) in
  let e2 := mkEnrichmentData None (Some ["a red rose"]) in
  calculate_relevance red_rose e1 "rose" = calculate_relevance red_rose e2 "rose"
  /\ expansion_triggered e1 "rose" = expansion_triggered e2 "rose"
  /\ (forall (discover : string -> list CombinedResult) (r : float)
             (st : ExpandState),
        exists related calls,
          expand_step discover "rose" st (mkCombinedResult red_rose e1 r)
          = (fst st ++ mkCombinedResult red_rose e1 r :: related,
             snd st ++ calls)
          /\ expand_step discover "rose" st (mkCombinedResult red_rose e2 r)
             = (fst st ++ mkCombinedResult red_rose e2 r :: related,
                snd st ++ calls)).
Proof.
  exact (C10_only_description_attribute_read red_rose "rose"
           (mkEnrichmentData (Some ["Anon"]) (Some ["a red rose"]))
           (mkEnrichmentData None (Some ["a red rose"])) eq_refl).
Defined.

(* ================================================================== *)
(** * Further properties of the code *)

(** ** The scorer *)

Lemma lower_ascii_idem (c : ascii) : lower_ascii (lower_ascii c) = lower_ascii c.
Proof. destruct c as [[] [] [] [] [] [] [] []]; reflexivity. Qed.

Lemma lower_idem (s : string) : lower (lower s) = lower s.
Proof.
  induction s as [|c s IH]; simpl; [reflexivity|].
  now rewrite lower_ascii_idem, IH.
Qed.

Lemma truthy_str_lower (s : string) : truthy_str (lower s) = truthy_str s.
Proof. now destruct s. Qed.

Lemma existsb_matches_map (ql : string) (l : list string) :
  existsb (matches ql) l = existsb (str_in ql) (map lower l).
Proof.
  induction l as [|x l IH]; simpl; [reflexivity|]. now rewrite IH.
Qed.

(** The contributions read the texts through [lower] only. *)
Lemma contribution_sum_lowered (it : SMKItem) (e : EnrichmentData)
      (query : string) :
  contribution_sum it e query
  = ((if existsb (str_in (lower query)) (map lower (titles it))
      then 0.5 else 0)
     + (if str_in (lower query) (lower (creator it)) then 0.3 else 0)
     + (match option_map lower (description it) with
        | Some d => if truthy_str d && str_in (lower query) d then 0.2 else 0
        | None => 0
        end)
     + (match option_map (map lower) (აღწერა e) with
        | Some (d :: ds) =>
            if existsb (str_in (lower query)) (d :: ds) then 0.2 else 0
        | _ => 0
        end))%float.
Proof.
  unfold contribution_sum, title_contribution, creator_contribution,
    description_contribution, enrichment_contribution.
  rewrite existsb_matches_map. unfold matches at 1.
  f_equal; [f_equal|].
  - destruct (description it) as [d|]; simpl; [|reflexivity].
    now rewrite truthy_str_lower.
  - destruct (აღწერა e) as [[|d ds]|]; simpl; try reflexivity.
    now rewrite existsb_matches_map.
Qed.

(** X1: the score reads every text up to letter case.  Two queries with
    the same lowering, on items and enrichments whose titles, creator,
    description and enrichment descriptions have the same lowerings, get
    the same relevance. *)
Theorem X1_relevance_ignores_case :
  forall (it1 it2 : SMKItem) (e1 e2 : EnrichmentData) (q1 q2 : string),
    lower q1 = lower q2 ->
    map lower (titles it1) = map lower (titles it2) ->
    lower (creator it1) = lower (creator it2) ->
    option_map lower (description it1) = option_map lower (description it2) ->
    option_map (map lower) (აღწერა e1) = option_map (map lower) (აღწერა e2) ->
    calculate_relevance it1 e1 q1 = calculate_relevance it2 e2 q2.
Proof.
  intros it1 it2 e1 e2 q1 q2 Hq Ht Hc Hd He.
  unfold calculate_relevance.
  rewrite !raw_score_sum, !contribution_sum_lowered.
  now rewrite Hq, Ht, Hc, Hd, He.
Qed.

Lemma X1_witness_shouting :
  calculate_relevance
    (mkSMKItem "KMS1" ["RED ROSE"] "ANON" None (Some "A Rose"))
    (mkEnrichmentData None (Some ["ROSE"])) "rOsE"
  = calculate_relevance
      (mkSMKItem "KMS2" ["red rose"] "Anon" (Some "t.jpg") (Some "a rose"))
      (mkEnrichmentData (Some ["x"]) (Some ["Rose"])) "ROSE".
Proof.
  apply X1_relevance_ignores_case; reflexivity.
Defined.

(** X2: the relevance is one of nine numbers, 0, 0.2, 0.3, 0.4, 0.5, 0.7,
    0.8, 0.8999999999999999 and 1; the eighth is what a title match and the
    two description matches add up to in binary floating point. *)
Theorem X2_relevance_takes_nine_values :
  (forall (it : SMKItem) (e : EnrichmentData) (query : string),
      In (calculate_relevance it e query)
         [0; 0.2; 0.3; 0.4; 0.5; 0.7; 0.8; 0.8999999999999999; 1]%float)
  /\ calculate_relevance
       (mkSMKItem "KMS1" ["Rose"] "Anon" None (Some "a rose")) rose_note "rose"
     = 0.8999999999999999%float
  /\ (0.8999999999999999 <? 0.9)%float = true.
Proof.
  split; [|split; reflexivity].
  intros it e query.
  pose proof (relevance_in_score_values it e query) as H.
  revert H. generalize (calculate_relevance it e query). intros r H.
  vm_compute in H. simpl.
  repeat (destruct H as [H|H]; [subst r; tauto|]). contradiction.
Qed.

(** Refutes an equation between two different float constants, and proves
    a combination of equations between equal ones. *)
Ltac float_absurd H :=
  exfalso; revert H; apply float_neq_by_eqb; reflexivity.

Ltac float_decide :=
  lazymatch goal with
  | |- _ /\ _ => split; float_decide
  | |- _ \/ _ => first [left; float_decide | right; float_decide]
  | |- _ = _ => reflexivity
  end.

Lemma contributions_cases (it : SMKItem) (e : EnrichmentData) (query : string) :
  (title_contribution it query = 0.5 \/ title_contribution it query = 0)%float
  /\ (creator_contribution it query = 0.3
      \/ creator_contribution it query = 0)%float
  /\ (description_contribution it query = 0.2
      \/ description_contribution it query = 0)%float
  /\ (enrichment_contribution e query = 0.2
      \/ enrichment_contribution e query = 0)%float.
Proof.
  unfold title_contribution, creator_contribution, description_contribution,
    enrichment_contribution.
  repeat split.
  - destruct (existsb _ _); auto.
  - destruct (matches _ _); auto.
  - destruct (description it) as [d|]; [destruct (_ && _)|]; auto.
  - destruct (აღწერა e) as [[|d ds]|]; [|destruct (existsb _ _)|]; auto.
Qed.

(** X3: the relevance is 1 exactly when the query occurs in a title and in
    the creator and in the description or an enrichment description; it is
    0 exactly when it occurs in none of the four. *)
Theorem X3_relevance_extremes :
  forall (it : SMKItem) (e : EnrichmentData) (query : string),
    (calculate_relevance it e query = 1%float <->
       title_contribution it query = 0.5%float
       /\ creator_contribution it query = 0.3%float
       /\ (description_contribution it query = 0.2%float
           \/ enrichment_contribution e query = 0.2%float))
    /\ (calculate_relevance it e query = 0%float <->
          title_contribution it query = 0%float
          /\ creator_contribution it query = 0%float
          /\ description_contribution it query = 0%float
          /\ enrichment_contribution e query = 0%float).
Proof.
  intros it e query. unfold calculate_relevance.
  rewrite raw_score_sum. unfold contribution_sum.
  destruct (contributions_cases it e query)
    as [[Ht|Ht] [[Hc|Hc] [[Hd|Hd] [He|He]]]];
    rewrite Ht, Hc, Hd, He; clear Ht Hc Hd He; split; split.
  all: try (intros H; first [solve [float_decide] | float_absurd H]).
  all: try (intros (H1 & H2 & [H3|H3]);
            first [reflexivity | float_absurd H1 | float_absurd H2
                  | float_absurd H3]).
  all: intros (H1 & H2 & H3 & H4);
    first [reflexivity | float_absurd H1 | float_absurd H2
          | float_absurd H3 | float_absurd H4].
Qed.

(** X4: an enrichment never lowers the score of an item and adds at most
    0.2 to it: the relevance with the empty enrichment, which is what a
    failed enrichment request leaves, is at most the relevance with any
    enrichment, which is at most 0.2 above it. *)
Theorem X4_enrichment_only_adds :
  forall (it : SMKItem) (e : EnrichmentData) (query : string),
    (calculate_relevance it EnrichmentData_empty query
     <=? calculate_relevance it e query)%float = true
    /\ (calculate_relevance it e query
        <=? calculate_relevance it EnrichmentData_empty query + 0.2)%float
       = true.
Proof.
  intros it e query. unfold calculate_relevance.
  rewrite !raw_score_sum. unfold contribution_sum.
  change (enrichment_contribution EnrichmentData_empty query) with 0%float.
  destruct (contributions_cases it e query)
    as [[Ht|Ht] [[Hc|Hc] [[Hd|Hd] [He|He]]]];
    rewrite Ht, Hc, Hd, He; split; reflexivity.
Qed.

Lemma str_in_empty (h : string) : str_in "" h = true.
Proof. destruct h; reflexivity. Qed.

Lemma existsb_matches_empty (l : list string) :
  existsb (matches "") l = truthy_list l.
Proof.
  destruct l as [|x l]; simpl; [reflexivity|].
  unfold matches at 1. now rewrite str_in_empty.
Qed.

(** X5: the empty query occurs in every text, so it scores an item by what
    the item has: 0.5 for having a title, 0.3 always (every creator contains
    the empty string), 0.2 for a description that is present and not empty,
    0.2 for an enrichment description attribute that is present and not
    empty; the relevance for the empty query is at least 0.3. *)
Theorem X5_empty_query_scores_presence :
  forall (it : SMKItem) (e : EnrichmentData),
    calculate_relevance it e ""
    = py_min 1
        ((if truthy_list (titles it) then 0.5 else 0)
         + 0.3
         + (match description it with
            | Some d => if truthy_str d then 0.2 else 0
            | None => 0
            end)
         + (if truthy_opt_list (აღწერა e) then 0.2 else 0))%float
    /\ (0.3 <=? calculate_relevance it e "")%float = true.
Proof.
  intros it e.
  assert (E : calculate_relevance it e ""
    = py_min 1
        ((if truthy_list (titles it) then 0.5 else 0)
         + 0.3
         + (match description it with
            | Some d => if truthy_str d then 0.2 else 0
            | None => 0
            end)
         + (if truthy_opt_list (აღწერა e) then 0.2 else 0))%float).
  { unfold calculate_relevance. rewrite raw_score_sum.
    unfold contribution_sum, title_contribution, creator_contribution,
      description_contribution, enrichment_contribution.
    change (lower "") with "". rewrite existsb_matches_empty.
    unfold matches. rewrite str_in_empty.
    f_equal. f_equal; [f_equal|].
    - destruct (description it) as [d|]; [|reflexivity].
      now rewrite str_in_empty, andb_true_r.
    - destruct (აღწერა e) as [[|d ds]|]; try reflexivity.
      now rewrite existsb_matches_empty. }
  split; [exact E|]. rewrite E.
  destruct (truthy_list (titles it));
    (destruct (description it) as [d|]; [destruct (truthy_str d)|]);
    destruct (truthy_opt_list (აღწერა e)); reflexivity.
Qed.

(** ** The catalog client *)

Lemma traverse_inv {A B} (f : A -> result B) (l : list A) (bs : list B) :
  traverse f l = Return bs -> Forall2 (fun a b => f a = Return b) l bs.
Proof.
  revert bs. induction l as [|a l IH]; intros bs H; simpl in H.
  - injection H as <-. constructor.
  - destruct (f a) as [b|e] eqn:Ea; [|discriminate]. simpl in H.
    destruct (traverse f l) as [bs'|e]; [|discriminate]. simpl in H.
    injection H as <-. constructor; auto.
Qed.

Lemma traverse_raises {A B} (f : A -> result B) (l : list A) :
  Exists (fun a => exists e, f a = Raise e) l ->
  exists a e, In a l /\ f a = Raise e /\ traverse f l = Raise e.
Proof.
  induction 1 as [a l [e He]|a l _ [a' [e [Hin [He Ht]]]]]; simpl.
  - exists a, e. rewrite He. repeat split. now left.
  - destruct (f a) as [b|e0] eqn:Ea.
    + exists a', e. rewrite Ht. repeat split; auto.
    + exists a, e0. repeat split; auto.
Qed.

Lemma str_field_inv (j : json) (s : string) :
  Pydantic.str_field j = Return s -> j = JStr s.
Proof. destruct j; simpl; try discriminate. now intros [= ->]. Qed.

Lemma list_str_field_inv (j : json) (l : list string) :
  Pydantic.list_str_field j = Return l -> j = JArr (map JStr l).
Proof.
  destruct j as [| | | |elems|]; simpl; try discriminate.
  intros H. apply traverse_inv in H. f_equal.
  induction H as [|j s elems l Hj _ IH]; simpl; [reflexivity|].
  now rewrite (str_field_inv _ _ Hj), IH.
Qed.

Lemma required_inv {A} (f : json -> result A) (o : option json) (a : A) :
  Pydantic.required f o = Return a -> exists j, o = Some j /\ f j = Return a.
Proof. destruct o as [j|]; simpl; [intros H; now exists j|discriminate]. Qed.

Lemma optional_str_inv (o : option json) (x : option string) :
  Pydantic.optional Pydantic.str_field o = Return x ->
  match x with
  | Some s => o = Some (JStr s)
  | None => o = None \/ o = Some JNull
  end.
Proof.
  destruct o as [[| | |s| |]|]; simpl; try discriminate;
    intros [= <-]; auto.
Qed.

(** A validated item holds what the object held. *)
Lemma make_SMKItem_inv (j : json) (it : SMKItem) :
  Pydantic.make_SMKItem j = Return it ->
  exists fields, j = JObj fields /\ holds_item fields it.
Proof.
  destruct j as [| | | | |fields]; simpl; try discriminate.
  intros H. exists fields. split; [reflexivity|].
  destruct (Pydantic.required Pydantic.str_field
              (PyJson.lookup "object_number" fields)) as [o|] eqn:E1;
    [|discriminate]. simpl in H.
  destruct (Pydantic.required Pydantic.list_str_field
              (PyJson.lookup "titles" fields)) as [t|] eqn:E2;
    [|discriminate]. simpl in H.
  destruct (Pydantic.required Pydantic.str_field
              (PyJson.lookup "creator" fields)) as [c|] eqn:E3;
    [|discriminate]. simpl in H.
  destruct (Pydantic.optional Pydantic.str_field
              (PyJson.lookup "image_thumbnail" fields)) as [th|] eqn:E4;
    [|discriminate]. simpl in H.
  destruct (Pydantic.optional Pydantic.str_field
              (PyJson.lookup "description" fields)) as [d|] eqn:E5;
    [|discriminate]. simpl in H.
  injection H as <-. unfold holds_item. simpl.
  apply required_inv in E1 as [j1 [-> E1]]. apply str_field_inv in E1 as ->.
  apply required_inv in E2 as [j2 [-> E2]]. apply list_str_field_inv in E2 as ->.
  apply required_inv in E3 as [j3 [-> E3]]. apply str_field_inv in E3 as ->.
  apply optional_str_inv in E4. apply optional_str_inv in E5.
  repeat split; assumption.
Qed.

(** Validation raises nothing but [PyException]. *)
Lemma make_SMKItem_raises (j : json) (e : exn) :
  Pydantic.make_SMKItem j = Raise e -> exists msg, e = PyException msg.
Proof.
  assert (S : forall j e, Pydantic.str_field j = Raise e ->
                          exists msg, e = PyException msg).
  { intros [| | | | |] x; simpl; try discriminate; intros [= <-]; eauto. }
  assert (L : forall j e, Pydantic.list_str_field j = Raise e ->
                          exists msg, e = PyException msg).
  { intros [| | | |elems|] x; simpl; try (intros [= <-]; eauto).
    induction elems as [|a elems IH]; simpl; [discriminate|].
    destruct (Pydantic.str_field a) eqn:Ea; simpl.
    - destruct (traverse Pydantic.str_field elems); simpl;
        [discriminate|intros [= <-]; now apply IH].
    - intros [= <-]. now apply (S a). }
  assert (R : forall A (f : json -> result A) o e,
             (forall j e, f j = Raise e -> exists msg, e = PyException msg) ->
             Pydantic.required f o = Raise e -> exists msg, e = PyException msg).
  { intros A f [j'|] x Hf; simpl; [apply Hf|intros [= <-]; eauto]. }
  assert (O : forall o e, Pydantic.optional Pydantic.str_field o = Raise e ->
                          exists msg, e = PyException msg).
  { intros [[| | | | |]|] x; simpl; try discriminate; intros [= <-]; eauto. }
  destruct j as [| | | | |fields]; simpl; try (intros [= <-]; eauto).
  destruct (Pydantic.required Pydantic.str_field _) eqn:E1; simpl;
    [|intros [= <-]; now apply R in E1].
  destruct (Pydantic.required Pydantic.list_str_field _) eqn:E2; simpl;
    [|intros [= <-]; now apply R in E2].
  destruct (Pydantic.required Pydantic.str_field
              (PyJson.lookup "creator" fields)) eqn:E3; simpl;
    [|intros [= <-]; now apply R in E3].
  destruct (Pydantic.optional Pydantic.str_field
              (PyJson.lookup "image_thumbnail" fields)) eqn:E4; simpl;
    [|intros [= <-]; now apply O in E4].
  destruct (Pydantic.optional Pydantic.str_field
              (PyJson.lookup "description" fields)) eqn:E5; simpl;
    [discriminate|intros [= <-]; now apply O in E5].
Qed.

(** The body of the catalog client on a response that came through. *)
Lemma fetch_smk_data_body_ok (w : World) (n : nat) (query : string)
      (status : Z) (fields : list (string * json)) :
  w n SMK_API_BASE_URL (catalog_params query)
  = HttpResponse status (Some (JObj fields)) ->
  Requests.bad_status status = false ->
  fetch_smk_data_body w n query
  = match PyJson.lookup "items" fields with
    | None => Return []
    | Some items =>
        if negb (PyJson.truthy items) then Return []
        else match items with
             | JArr elems => traverse Pydantic.make_SMKItem elems
             | _ => Raise (PyException "TypeError")
             end
    end.
Proof.
  intros Hw Hs. unfold fetch_smk_data_body, Requests.get.
  change [("keys", query);
          ("fields", "object_number,titles,creator,image_thumbnail,description")]
    with (catalog_params query).
  rewrite Hw. simpl. rewrite Hs. simpl.
  now destruct (PyJson.lookup "items" fields).
Qed.

(** X7: when the catalog request fails in transport, comes back with a
    status that [raise_for_status] rejects (4xx, 5xx), or with a body that
    is not JSON, [fetch_smk_data] raises an [HTTPException] with status 500
    whose detail starts with "Fejl ved hentning af data fra SMK API: ". *)
Theorem X7_catalog_unavailable_is_500 :
  forall (w : World) (n : nat) (query : string),
    match w n SMK_API_BASE_URL (catalog_params query) with
    | ConnectionFailed _ => True
    | HttpResponse status body =>
        Requests.bad_status status = true \/ body = None
    end ->
    exists msg,
      fetch_smk_data w n query
      = Raise (HTTPException 500
                 ("Fejl ved hentning af data fra SMK API: " ++ msg)%string).
Proof.
  intros w n query H.
  unfold fetch_smk_data, fetch_smk_data_body, Requests.get.
  change [("keys", query);
          ("fields", "object_number,titles,creator,image_thumbnail,description")]
    with (catalog_params query).
  destruct (w n SMK_API_BASE_URL (catalog_params query)) as [msg|status body];
    simpl; [now exists msg|].
  destruct (Requests.bad_status status) eqn:Es; simpl; [eexists; reflexivity|].
  destruct H as [H|H]; [discriminate|]. subst body. simpl.
  eexists; reflexivity.
Qed.

Lemma X7_witness_service_unavailable :
  exists msg,
    fetch_smk_data catalog_down_world 0 "rose"
    = Raise (HTTPException 500
               ("Fejl ved hentning af data fra SMK API: " ++ msg)%string).
Proof.
  apply (X7_catalog_unavailable_is_500 catalog_down_world 0 "rose").
  simpl. left. reflexivity.
Defined.

(** X8: when the catalog answers with an accepted status and a JSON object
    that has no ["items"] key, or has one with a falsy value (an empty
    array, [null], an empty object or string, zero, [false]),
    [fetch_smk_data] returns the empty list and raises nothing. *)
Theorem X8_catalog_without_items_is_empty :
  forall (w : World) (n : nat) (query : string) (status : Z)
         (fields : list (string * json)),
    w n SMK_API_BASE_URL (catalog_params query)
    = HttpResponse status (Some (JObj fields)) ->
    Requests.bad_status status = false ->
    match PyJson.lookup "items" fields with
    | None => True
    | Some items => PyJson.truthy items = false
    end ->
    fetch_smk_data w n query = Return [].
Proof.
  intros w n query status fields Hw Hs Hi. unfold fetch_smk_data.
  rewrite (fetch_smk_data_body_ok w n query status fields Hw Hs).
  destruct (PyJson.lookup "items" fields) as [items|]; [|reflexivity].
  now rewrite Hi.
Qed.

Lemma X8_witness_missing_and_null_items :
  fetch_smk_data (fun _ _ _ => HttpResponse 200 (Some (JObj []))) 0 "rose"
  = Return []
  /\ fetch_smk_data
       (fun _ _ _ => HttpResponse 200 (Some (JObj [("items", JNull)]))) 0 "rose"
     = Return [].
Proof.
  split.
  - apply (X8_catalog_without_items_is_empty
             (fun _ _ _ => HttpResponse 200 (Some (JObj []))) 0 "rose" 200 []);
      reflexivity.
  - apply (X8_catalog_without_items_is_empty
             (fun _ _ _ => HttpResponse 200 (Some (JObj [("items", JNull)])))
             0 "rose" 200 [("items", JNull)]);
      reflexivity.
Defined.

(** X9: a non-empty list returned by [fetch_smk_data] came from a response
    with an accepted status whose ["items"] array has one object for each
    returned item, in the same order, and each item holds the fields of
    its object: [object_number], [titles] and [creator] as they are,
    [image_thumbnail] and [description] as they are or absent when the
    object has [null] or no such key. *)
Theorem X9_catalog_items_keep_order_and_fields :
  forall (w : World) (n : nat) (query : string) (items : list SMKItem),
    fetch_smk_data w n query = Return items ->
    items <> [] ->
    exists status fields elems,
      w n SMK_API_BASE_URL (catalog_params query)
      = HttpResponse status (Some (JObj fields))
      /\ Requests.bad_status status = false
      /\ PyJson.lookup "items" fields = Some (JArr elems)
      /\ Forall2 (fun j it => exists obj, j = JObj obj /\ holds_item obj it)
                 elems items.
Proof.
  intros w n query items H Hne.
  unfold fetch_smk_data in H.
  destruct (fetch_smk_data_body w n query) as [items'|e] eqn:Eb;
    [|destruct e; discriminate].
  injection H as ->.
  unfold fetch_smk_data_body, Requests.get in Eb.
  change [("keys", query);
          ("fields", "object_number,titles,creator,image_thumbnail,description")]
    with (catalog_params query) in Eb.
  destruct (w n SMK_API_BASE_URL (catalog_params query)) as [msg|status body];
    simpl in Eb; [discriminate|].
  destruct (Requests.bad_status status) eqn:Es; simpl in Eb; [discriminate|].
  destruct body as [[| | | | |fields]|]; simpl in Eb; try discriminate.
  exists status, fields.
  destruct (PyJson.lookup "items" fields) as [v|] eqn:El; simpl in Eb.
  - destruct (negb (PyJson.truthy v)); [injection Eb as <-; contradiction|].
    destruct v as [| | | |elems|]; try discriminate.
    exists elems. repeat split; auto.
    apply traverse_inv in Eb.
    eapply Forall2_impl; [|exact Eb].
    intros j it. apply make_SMKItem_inv.
  - injection Eb as <-. contradiction.
Qed.

Lemma X9_witness_garden :
  exists status fields elems,
    garden_world 0 SMK_API_BASE_URL (catalog_params "Rose")
    = HttpResponse status (Some (JObj fields))
    /\ Requests.bad_status status = false
    /\ PyJson.lookup "items" fields = Some (JArr elems)
    /\ Forall2 (fun j it => exists obj, j = JObj obj /\ holds_item obj it)
               elems [rose_a; rose_b; rose_c].
Proof.
  apply (X9_catalog_items_keep_order_and_fields garden_world 0 "Rose"
           [rose_a; rose_b; rose_c]).
  - reflexivity.
  - discriminate.
Defined.

(** An element that cannot be an item: not an object, or an object without
    one of the required keys. *)
Lemma make_SMKItem_incomplete (j : json) :
  match j with
  | JObj obj =>
      PyJson.lookup "object_number" obj = None
      \/ PyJson.lookup "titles" obj = None
      \/ PyJson.lookup "creator" obj = None
  | _ => True
  end ->
  exists e, Pydantic.make_SMKItem j = Raise e.
Proof.
  destruct j as [| | | | |obj]; simpl; try (intros _; eexists; reflexivity).
  intros [H|[H|H]]; rewrite H; simpl.
  - eexists; reflexivity.
  - destruct (Pydantic.required _ _); simpl; eexists; reflexivity.
  - destruct (Pydantic.required _ _); simpl; [|eexists; reflexivity].
    destruct (Pydantic.required _ _); simpl; eexists; reflexivity.
Qed.

(** X10: one bad element spoils the whole catalog answer.  When the
    ["items"] array of an accepted response has an element that is not an
    object, or an object without [object_number], [titles] or [creator],
    [fetch_smk_data] returns no item at all: it raises an [HTTPException]
    with status 500 whose detail starts with "Uventet fejl: ". *)
Theorem X10_one_bad_item_fails_the_fetch :
  forall (w : World) (n : nat) (query : string) (status : Z)
         (fields : list (string * json)) (elems : list json),
    w n SMK_API_BASE_URL (catalog_params query)
    = HttpResponse status (Some (JObj fields)) ->
    Requests.bad_status status = false ->
    PyJson.lookup "items" fields = Some (JArr elems) ->
    Exists (fun j =>
              match j with
              | JObj obj =>
                  PyJson.lookup "object_number" obj = None
                  \/ PyJson.lookup "titles" obj = None
                  \/ PyJson.lookup "creator" obj = None
              | _ => True
              end) elems ->
    exists msg,
      fetch_smk_data w n query
      = Raise (HTTPException 500 ("Uventet fejl: " ++ msg)%string).
Proof.
  intros w n query status fields elems Hw Hs Hi Hex.
  unfold fetch_smk_data.
  rewrite (fetch_smk_data_body_ok w n query status fields Hw Hs), Hi.
  assert (Ht : PyJson.truthy (JArr elems) = true)
    by (destruct Hex; reflexivity).
  rewrite Ht. simpl negb. cbv iota.
  destruct (traverse_raises Pydantic.make_SMKItem elems) as [j [e [_ [He ->]]]].
  { eapply Exists_impl; [|exact Hex]. intros j. apply make_SMKItem_incomplete. }
  destruct (make_SMKItem_raises j e He) as [msg ->].
  now exists msg.
Qed.

Lemma X10_witness_missing_creator :
  exists msg,
    fetch_smk_data broken_item_world 0 "Rose"
    = Raise (HTTPException 500 ("Uventet fejl: " ++ msg)%string).
Proof.
  eapply (X10_one_bad_item_fails_the_fetch broken_item_world 0 "Rose" 200).
  - reflexivity.
  - reflexivity.
  - reflexivity.
  - right. left. right. right. reflexivity.
Defined.

(** ** The enrichment client on a good answer *)

Lemma traverse_str_field_good (elems : list json) :
  forallb is_str elems = true ->
  traverse Pydantic.str_field elems = Return (strings_of elems).
Proof.
  induction elems as [|j elems IH]; simpl; [reflexivity|].
  destruct j; simpl; try discriminate.
  intros H. now rewrite (IH H).
Qed.

Lemma optional_list_str_good (o : option json) :
  attribute_ok o = true ->
  Pydantic.optional Pydantic.list_str_field o = Return (attribute_value o).
Proof.
  destruct o as [[| | | |elems|]|]; simpl; try reflexivity; try discriminate.
  intros H. now rewrite (traverse_str_field_good _ H).
Qed.

(** X11: on an answer with an accepted status and a payload of the
    expected shape, [fetch_enrichment_data] returns the two attributes as
    the ["data"] object has them: the list of strings of an array, nothing
    for a key that is missing or [null]; other keys are ignored, and a
    payload without ["data"] gives the empty enrichment. *)
Theorem X11_enrichment_decodes_payload :
  forall (w : World) (n : nat) (id : string) (status : Z)
         (fields : list (string * json)),
    w n (SMK_ENRICHMENT_BASE_URL ++ id)%string []
    = HttpResponse status (Some (JObj fields)) ->
    Requests.bad_status status = false ->
    payload_ok (Some (JObj fields)) = true ->
    fetch_enrichment_data w n id
    = Return (mkEnrichmentData
                (attribute_value (PyJson.lookup "கலை_navn" (data_fields fields)))
                (attribute_value (PyJson.lookup "აღწერა" (data_fields fields))))
    /\ (PyJson.lookup "data" fields = None ->
        fetch_enrichment_data w n id = Return EnrichmentData_empty).
Proof.
  intros w n id status fields Hw Hs Hp.
  assert (E : fetch_enrichment_data w n id
    = Return (mkEnrichmentData
                (attribute_value (PyJson.lookup "கலை_navn" (data_fields fields)))
                (attribute_value (PyJson.lookup "აღწერა" (data_fields fields))))).
  { unfold fetch_enrichment_data, fetch_enrichment_data_body, Requests.get.
    rewrite Hw. simpl. rewrite Hs. simpl.
    unfold data_fields. simpl in Hp.
    destruct (PyJson.lookup "data" fields) as [d|]; [|reflexivity].
    destruct d as [| | | | |dfields]; try discriminate.
    simpl in Hp. apply andb_true_iff in Hp as [H1 H2]. simpl.
    now rewrite (optional_list_str_good _ H1), (optional_list_str_good _ H2). }
  split; [exact E|].
  intros Hd. rewrite E. unfold data_fields. now rewrite Hd.
Qed.

Lemma X11_witness_note_for_the_rose :
  fetch_enrichment_data
    (fun _ _ _ => HttpResponse 200
       (Some (JObj [("data", JObj [("აღწერა", JArr [JStr "a red rose"]);
                                    ("source", JStr "wiki")])]))) 1 "KMS1"
  = Return rose_note.
Proof.
  apply (X11_enrichment_decodes_payload
           (fun _ _ _ => HttpResponse 200
              (Some (JObj [("data", JObj [("აღწერა", JArr [JStr "a red rose"]);
                                           ("source", JStr "wiki")])])))
           1 "KMS1" 200
           [("data", JObj [("აღწერა", JArr [JStr "a red rose"]);
                           ("source", JStr "wiki")])]);
    reflexivity.
Defined.

(** ** The scoring stage *)

(** [fetch_enrichment_data] reads the world at its own request only. *)
Lemma fetch_enrichment_data_local (w1 w2 : World) (n : nat) (id : string) :
  w1 n (SMK_ENRICHMENT_BASE_URL ++ id)%string []
  = w2 n (SMK_ENRICHMENT_BASE_URL ++ id)%string [] ->
  fetch_enrichment_data w1 n id = fetch_enrichment_data w2 n id.
Proof.
  intros H.
  unfold fetch_enrichment_data, fetch_enrichment_data_body, Requests.get.
  now rewrite H.
Qed.

(** The i-th result is made of the i-th candidate and of the enrichment
    request numbered i after the first. *)
Lemma score_loop_indexed (w : World) (query : string) (items : list SMKItem) :
  forall (n : nat) (results : list CombinedResult),
  exists scored,
    score_loop w n query items results = Return (results ++ scored)
    /\ forall i, nth_error scored i
       = match nth_error items i with
         | Some it =>
             match fetch_enrichment_data w (n + i) (object_number it) with
             | Return e =>
                 Some (mkCombinedResult it e (calculate_relevance it e query))
             | Raise _ => None
             end
         | None => None
         end.
Proof.
  induction items as [|it items IH]; intros n results; simpl.
  - exists []. rewrite app_nil_r. split; [reflexivity|].
    intros [|i]; reflexivity.
  - destruct (fetch_enrichment_data_returns w n (object_number it)) as [e He].
    rewrite He. simpl.
    destruct (IH (S n) (results ++ [mkCombinedResult it e
                                      (calculate_relevance it e query)]))
      as [scored [Hs Hn]].
    exists (mkCombinedResult it e (calculate_relevance it e query) :: scored).
    rewrite Hs, <- app_assoc. split; [reflexivity|].
    intros [|i]; simpl.
    + now rewrite Nat.add_0_r, He.
    + rewrite Hn. now rewrite Nat.add_succ_r.
Qed.

(** X12: the enrichment requests do not touch each other.  In two runs of
    the scoring stage over the same candidates, the i-th result is the same
    whenever the i-th enrichment request gets the same answer, whatever
    the other requests get, failures included. *)
Theorem X12_enrichment_requests_are_isolated :
  forall (w1 w2 : World) (n : nat) (query : string) (items : list SMKItem)
         (scored1 scored2 : list CombinedResult) (i : nat),
    score_loop w1 n query items [] = Return scored1 ->
    score_loop w2 n query items [] = Return scored2 ->
    (forall url, w1 (n + i) url [] = w2 (n + i) url []) ->
    nth_error scored1 i = nth_error scored2 i.
Proof.
  intros w1 w2 n query items scored1 scored2 i H1 H2 Hw.
  destruct (score_loop_indexed w1 query items n []) as [s1 [E1 N1]].
  destruct (score_loop_indexed w2 query items n []) as [s2 [E2 N2]].
  simpl in E1, E2. rewrite E1 in H1. rewrite E2 in H2.
  injection H1 as <-. injection H2 as <-.
  rewrite N1, N2. destruct (nth_error items i) as [it|]; [|reflexivity].
  now rewrite (fetch_enrichment_data_local w1 w2 (n + i) (object_number it)
                 (Hw _)).
Qed.

Lemma X12_witness_second_rose_down :
  nth_error [mkCombinedResult rose_a EnrichmentData_empty 0.5%float;
             mkCombinedResult rose_b rose_note 1%float;
             mkCombinedResult rose_c EnrichmentData_empty 0.5%float] 2
  = nth_error [mkCombinedResult rose_a EnrichmentData_empty 0.5%float;
               mkCombinedResult rose_b EnrichmentData_empty 0.8%float;
               mkCombinedResult rose_c EnrichmentData_empty 0.5%float] 2.
Proof.
  apply (X12_enrichment_requests_are_isolated
           garden_world_b_note garden_world_b_down
           1 "Rose" [rose_a; rose_b; rose_c]).
  - reflexivity.
  - reflexivity.
  - intros url. reflexivity.
Defined.

(** ** The fuzzy filter on titled items *)

(** The score [extractOne] returns is the score of one of the choices. *)
Lemma extract_loop_score (scorer : string -> string -> float) (query : string)
      (choices : list string) :
  forall i best c s k,
    RapidFuzz.extract_loop scorer query choices i best = Some (c, s, k) ->
    best = Some (c, s, k) \/ (In c choices /\ s = scorer query c).
Proof.
  induction choices as [|x choices IH]; intros i best c s k H; simpl in H.
  - now left.
  - apply IH in H as [H|[Hin Hs]]; [|right; split; [now right|exact Hs]].
    destruct best as [[[c0 s0] k0]|].
    + destruct (s0 <? scorer query x)%float; [|now left].
      injection H as <- <- <-. right. split; [now left|reflexivity].
    + injection H as <- <- <-. right. split; [now left|reflexivity].
Qed.

(** X13: when every catalog item has a title, the fuzzy-matching stage
    returns the items that pass the threshold, in catalog order, or the
    whole input when none passes, so a non-empty input gives a non-empty
    output; and an item passes only if the ratio of the query against one
    of its own titles is at least 80. *)
Theorem X13_fuzzy_filter_on_titled_items :
  forall (query : string) (items : list SMKItem),
    Forall (fun it => titles it <> []) items ->
    (exists kept,
        fuzzy_filter query items = Return kept
        /\ kept = (match filter (retained query) items with
                   | [] => items
                   | _ :: _ => filter (retained query) items
                   end)
        /\ (items <> [] -> kept <> []))
    /\ (forall it, retained query it = true ->
          exists t, In t (titles it)
                    /\ py_ge (RapidFuzz.ratio query t) 80 = true).
Proof.
  intros query items H. split; [now apply fuzzy_filter_titled|].
  intros it Hr. unfold retained, RapidFuzz.extractOne in Hr.
  destruct (RapidFuzz.extract_loop RapidFuzz.ratio query (titles it) 0 None)
    as [[[c s] k]|] eqn:E; [|discriminate].
  apply extract_loop_score in E as [E|[Hin ->]]; [discriminate|].
  now exists c.
Qed.

Lemma X13_witness_exact_and_loose_titles :
  (exists kept,
      fuzzy_filter "Rose" [rose_a; red_rose] = Return kept
      /\ kept = (match filter (retained "Rose") [rose_a; red_rose] with
                 | [] => [rose_a; red_rose]
                 | _ :: _ => filter (retained "Rose") [rose_a; red_rose]
                 end)
      /\ ([rose_a; red_rose] <> [] -> kept <> []))
  /\ (forall it, retained "Rose" it = true ->
        exists t, In t (titles it)
                  /\ py_ge (RapidFuzz.ratio "Rose" t) 80 = true).
Proof.
  apply (X13_fuzzy_filter_on_titled_items "Rose" [rose_a; red_rose]).
  repeat constructor; discriminate.
Defined.


(** ** The stages before the expansion *)

Lemma fetch_smk_data_raises_500 (w : World) (n : nat) (query : string)
      (e : exn) :
  fetch_smk_data w n query = Raise e -> exists detail, e = HTTPException 500 detail.
Proof.
  unfold fetch_smk_data.
  destruct (fetch_smk_data_body w n query) as [items|[msg|s d|msg]];
    try discriminate; intros [= <-]; eexists; reflexivity.
Qed.

(** A list of items has an item without title, or all have one. *)
Lemma untitled_or_titled (items : list SMKItem) :
  Exists (fun it => titles it = []) items
  \/ Forall (fun it => titles it <> []) items.
Proof.
  induction items as [|it items [IH|IH]]; [right; constructor|left|].
  - now constructor 2.
  - destruct (titles it) eqn:E.
    + left. now constructor.
    + right. constructor; [congruence|exact IH].
Qed.

(** Lines 199-214 in terms of their stages, when the catalog answered. *)
Lemma ranked_results_stages (w : World) (query : string)
      (items : list SMKItem) :
  fetch_smk_data w 0 query = Return items ->
  (Exists (fun it => titles it = []) items
   /\ ranked_results w query
      = Raise (PyException "'NoneType' object is not subscriptable"))
  \/ (Forall (fun it => titles it <> []) items
      /\ exists kept scored,
           fuzzy_filter query items = Return kept
           /\ score_loop w 1 query kept [] = Return scored
           /\ map item scored = kept
           /\ Forall (fun r => relevance r
                = calculate_relevance (item r) (enrichment r) query) scored
           /\ ranked_results w query = Return (sort_reverse relevance scored)).
Proof.
  intros Hf. destruct (untitled_or_titled items) as [Hu|Ht].
  - left. split; [exact Hu|].
    unfold ranked_results, fuzzy_filter.
    rewrite Hf. simpl. now rewrite (fuzzy_loop_untitled query items Hu).
  - right. split; [exact Ht|].
    destruct (fuzzy_filter_titled query items Ht) as [kept [Hk _]].
    destruct (score_loop_returns w query kept 1 []) as [scored [Hs [Hm Hr]]].
    simpl in Hs. exists kept, scored. repeat split; auto.
    unfold ranked_results.
    rewrite Hf. simpl. rewrite Hk. simpl. now rewrite Hs.
Qed.

(** X14: the stages of [search_smk] before the expansion (lines 199-214)
    fail in two cases only: the catalog fetch raised, and they raise the
    same [HTTPException] with status 500; or the catalog returned an item
    without title, and they raise the [TypeError] of subscripting [None].
    In both cases [search_smk] raises an [HTTPException] with status 500:
    the first as it is, the second with a detail that starts with
    "Uventet fejl: ". *)
Theorem X14_ranking_fails_in_two_cases :
  forall (w : World) (query : string) (e : exn),
    ranked_results w query = Raise e ->
    ((fetch_smk_data w 0 query = Raise e
      /\ (exists detail, e = HTTPException 500 detail)
      /\ search_smk w query = Raise e)
     \/ (exists items,
           fetch_smk_data w 0 query = Return items
           /\ Exists (fun it => titles it = []) items
           /\ e = PyException "'NoneType' object is not subscriptable"
           /\ search_smk w query
              = Raise (HTTPException 500
                         ("Uventet fejl: " ++ exn_str e)%string))).
Proof.
  intros w query e H.
  destruct (fetch_smk_data w 0 query) as [items|e0] eqn:Hf.
  - right. exists items.
    destruct (ranked_results_stages w query items Hf)
      as [[Hu Hs]|[_ [kept [scored [_ [_ [_ [_ Hs]]]]]]]];
      rewrite Hs in H; [|discriminate].
    injection H as <-. repeat split; auto.
    unfold search_smk, search_smk_body. now rewrite Hs.
  - left. destruct (fetch_smk_data_raises_500 w 0 query e0 Hf) as [detail ->].
    unfold ranked_results in H. rewrite Hf in H. simpl in H. injection H as <-.
    split; [reflexivity|]. split; [now exists detail|].
    unfold search_smk, search_smk_body, ranked_results. now rewrite Hf.
Qed.

Lemma X14_witness_untitled :
  (fetch_smk_data untitled_world 0 "rose"
   = Raise (PyException "'NoneType' object is not subscriptable")
   /\ (exists detail,
         PyException "'NoneType' object is not subscriptable"
         = HTTPException 500 detail)
   /\ search_smk untitled_world "rose"
      = Raise (PyException "'NoneType' object is not subscriptable"))
  \/ (exists items,
        fetch_smk_data untitled_world 0 "rose" = Return items
        /\ Exists (fun it => titles it = []) items
        /\ PyException "'NoneType' object is not subscriptable"
           = PyException "'NoneType' object is not subscriptable"
        /\ search_smk untitled_world "rose"
           = Raise (HTTPException 500
                      ("Uventet fejl: "
                       ++ exn_str (PyException
                            "'NoneType' object is not subscriptable"))%string)).
Proof.
  apply (X14_ranking_fails_in_two_cases untitled_world "rose").
  reflexivity.
Defined.

(** X15: when the catalog fetch returns items that all have a title, the
    stages before the expansion return a ranking; its items are the items
    the fuzzy filter kept (those that pass the threshold, or all when none
    passes), each once, so an empty catalog gives an empty ranking and a
    non-empty one a non-empty ranking. *)
Theorem X15_ranking_returns_the_kept_items :
  forall (w : World) (query : string) (items : list SMKItem),
    fetch_smk_data w 0 query = Return items ->
    Forall (fun it => titles it <> []) items ->
    exists ranked,
      ranked_results w query = Return ranked
      /\ Permutation (map item ranked)
           (match filter (retained query) items with
            | [] => items
            | _ :: _ => filter (retained query) items
            end)
      /\ (items = [] -> ranked = [])
      /\ (items <> [] -> ranked <> []).
Proof.
  intros w query items Hf Ht.
  destruct (ranked_results_stages w query items Hf)
    as [[Hu _]|[_ [kept [scored [Hk [_ [Hm [_ Hs]]]]]]]].
  - exfalso. rewrite Forall_forall in Ht. apply Exists_exists in Hu
      as [it [Hin Hnil]]. now apply (Ht it Hin).
  - destruct (fuzzy_filter_titled query items Ht) as [kept' [Hk' [Heq Hne]]].
    rewrite Hk in Hk'. injection Hk' as <-.
    exists (sort_reverse relevance scored).
    assert (P : Permutation (map item (sort_reverse relevance scored)) kept).
    { rewrite <- Hm. apply Permutation_map, Permutation_sym, sort_reverse_perm. }
    split; [exact Hs|]. split; [now rewrite <- Heq|]. split.
    + intros ->. simpl in Heq. rewrite Heq in Hm.
      apply map_eq_nil in Hm. now rewrite Hm.
    + intros Hi E. rewrite E in P. simpl in P.
      apply Permutation_nil in P. now apply (Hne Hi).
Qed.

Lemma X15_witness_garden :
  exists ranked,
    ranked_results garden_world "Rose" = Return ranked
    /\ Permutation (map item ranked)
         (match filter (retained "Rose") [rose_a; rose_b; rose_c] with
          | [] => [rose_a; rose_b; rose_c]
          | _ :: _ => filter (retained "Rose") [rose_a; rose_b; rose_c]
          end)
    /\ ([rose_a; rose_b; rose_c] = [] -> ranked = [])
    /\ ([rose_a; rose_b; rose_c] <> [] -> ranked <> []).
Proof.
  apply (X15_ranking_returns_the_kept_items garden_world "Rose"
           [rose_a; rose_b; rose_c]).
  - reflexivity.
  - repeat constructor; discriminate.
Defined.

(** X16: in the ranking that lines 199-214 build, every result carries the
    score of its own item and its own enrichment for the query of the
    search: the sort does not separate a relevance from the result it was
    computed for. *)
Theorem X16_ranked_results_carry_their_own_score :
  forall (w : World) (query : string) (ranked : list CombinedResult),
    ranked_results w query = Return ranked ->
    forall r, In r ranked ->
      relevance r = calculate_relevance (item r) (enrichment r) query.
Proof.
  intros w query ranked H r Hr.
  destruct (fetch_smk_data w 0 query) as [items|e0] eqn:Hf.
  - destruct (ranked_results_stages w query items Hf)
      as [[_ Hs]|[_ [kept [scored [_ [_ [_ [Hc Hs]]]]]]]];
      rewrite Hs in H; [discriminate|].
    injection H as <-. rewrite Forall_forall in Hc. apply Hc.
    eapply Permutation_in; [symmetry; apply sort_reverse_perm|exact Hr].
  - unfold ranked_results in H. rewrite Hf in H. discriminate.
Qed.

Lemma X16_witness_garden :
  Forall (fun r => relevance r
                   = calculate_relevance (item r) (enrichment r) "Rose")
         garden_ranking.
Proof.
  apply Forall_forall.
  apply (X16_ranked_results_carry_their_own_score garden_world "Rose"
           garden_ranking).
  reflexivity.
Defined.
